(** * Namecheap DNS scripts: [add_subdomain.py] and [check_old_records.py]

    A shallow embedding of the two scripts and the properties of their
    record reconciliation, transport retry loop and XML response handling.

    Conventions.
    - A Python value that is either a [str] or [None] is an [option string];
      [None] is Python's [None].
    - The dicts that describe a host record have the five fixed keys
      [HostName], [RecordType], [Address], [MXPref], [TTL]; they are a record.
    - Other dicts ([params], an element's [attrib]) are association lists in
      insertion order.
    - [requests.get] and [ET.fromstring] are library code: the network is a
      function that answers the n-th request, the XML parser is a function
      from the body text to an optional tree ([None]: [ParseError]).
    - Functions that call the API or log run in the monad [M]: the world (the
      requests sent so far and the log) is threaded through, and a raised
      exception keeps the world it was raised in. *)

From Stdlib Require Import String Ascii Bool Arith ZArith Lia List.
From Stdlib Require Import DecimalString.
From Stdlib Require DecimalNat.
Import ListNotations.
Local Open Scope string_scope.
Local Open Scope list_scope.

(* ------------------------------------------------------------------ *)
(** ** Python values *)

(** A [str] or [None]. *)
Definition pystr := option string.

(** Truth value of a [str] or [None]: false for [None] and for [""]. *)
Definition truthy (v : pystr) : bool :=
  match v with
  | None => false
  | Some s => negb (s =? "")
  end.

(** [v == s] for [v] a [str] or [None] and [s] a [str]. *)
Definition py_eq (v : pystr) (s : string) : bool :=
  match v with
  | None => false
  | Some s' => s' =? s
  end.

(** [str(i)] for a non-negative integer. *)
Definition str_of_nat (i : nat) : string :=
  NilEmpty.string_of_uint (Nat.to_uint i).

(** A dict with [str] keys, in insertion order. *)
Definition dict (V : Type) := list (string * V).

Fixpoint dict_get {V} (d : dict V) (k : string) : option V :=
  match d with
  | [] => None
  | (k', v) :: d' => if k' =? k then Some v else dict_get d' k
  end.

(** [d[k] = v]: replaces the value of an existing key in place, otherwise
    adds the key at the end. *)
Fixpoint dict_set {V} (d : dict V) (k : string) (v : V) : dict V :=
  match d with
  | [] => [(k, v)]
  | (k', v') :: d' =>
      if k' =? k then (k', v) :: d' else (k', v') :: dict_set d' k v
  end.

(* ------------------------------------------------------------------ *)
(** ** xml.etree.ElementTree *)

(** An [Element]: tag, attributes, text and children (the tail is never
    read by the scripts). *)
#[local] Set Warnings "-register-all".
Inductive Element : Type :=
| Elem (tag : string) (attrib : dict string) (text : pystr)
       (children : list Element).

Definition tag (e : Element) : string :=
  match e with Elem t _ _ _ => t end.
Definition attrib (e : Element) : dict string :=
  match e with Elem _ a _ _ => a end.
Definition text (e : Element) : pystr :=
  match e with Elem _ _ x _ => x end.
Definition children (e : Element) : list Element :=
  match e with Elem _ _ _ cs => cs end.

(** [elem.get(key)]: the attribute, or [None]. *)
Definition get (e : Element) (key : string) : pystr :=
  dict_get (attrib e) key.

(** [elem.get(key, default)]. *)
Definition get_default (e : Element) (key : string) (default : string)
  : pystr :=
  match dict_get (attrib e) key with
  | Some v => Some v
  | None => Some default
  end.

(** Truth value of an [Element]: [Element.__bool__] is
    [len(self._children) != 0]. *)
Definition element_bool (e : Element) : bool :=
  match children e with
  | [] => false
  | _ :: _ => true
  end.

(** [elem.iter()]: the element and all its descendants, in document
    order. *)
Fixpoint iter (e : Element) : list Element :=
  match e with
  | Elem _ _ _ cs => e :: flat_map iter cs
  end.

(** The proper descendants of [root] in document order: what the path
    step [.//] ranges over ([elem.iter(tag)] without [elem] itself). *)
Definition descendants (root : Element) : list Element :=
  flat_map iter (children root).

Definition has_tag (t : string) (e : Element) : bool := tag e =? t.

(** [root.findall(".//t")], for [t] a plain tag name (no path syntax). *)
Definition findall_descendant (root : Element) (t : string)
  : list Element :=
  filter (has_tag t) (descendants root).

(** [root.find(".//t")]: the first match, or [None]. *)
Definition find_descendant (root : Element) (t : string)
  : option Element :=
  match findall_descendant root t with
  | [] => None
  | e :: _ => Some e
  end.

(** [root.findall(".//t/c")]: the children tagged [c] of every descendant
    tagged [t]. *)
Definition findall_descendant_child (root : Element) (t c : string)
  : list Element :=
  flat_map (fun e => filter (has_tag c) (children e))
           (findall_descendant root t).

(** ['}' in s], and [s.split('}', 1)[1]] when it is. *)
Fixpoint after_brace (s : string) : option string :=
  match s with
  | EmptyString => None
  | String a s' => if Ascii.eqb a "}"%char then Some s' else after_brace s'
  end.

(** The body of the loop of [strip_namespaces], on one tag. *)
Definition strip_tag (t : string) : string :=
  match after_brace t with
  | Some rest => rest
  | None => t
  end.

(** [strip_namespaces(elem)]: every node of [elem.iter()] gets its tag
    stripped; the tree is otherwise unchanged. Both scripts define it
    identically. *)
Fixpoint strip_namespaces (elem : Element) : Element :=
  match elem with
  | Elem t a x cs => Elem (strip_tag t) a x (map strip_namespaces cs)
  end.

(* ------------------------------------------------------------------ *)
(** ** Python list idioms *)

(** [[x for x in l if p(x)]]: the items that satisfy [p] are appended to
    the result one by one. *)
Definition comprehension_if {A} (p : A -> bool) (l : list A) : list A :=
  fold_left (fun acc x => if p x then acc ++ [x] else acc) l [].

(** [acc = []; for x in l: acc.append(f(x))]. *)
Definition for_append {A B} (f : A -> B) (l : list A) : list B :=
  fold_left (fun acc x => acc ++ [f x]) l [].

(** [enumerate(l, start=1)]. *)
Definition enumerate1 {A} (l : list A) : list (nat * A) :=
  combine (seq 1 (length l)) l.

(* ------------------------------------------------------------------ *)
(** ** Host records *)

(** The dict of one host record. [host.get("Name")] and the like are [None]
    when the attribute is absent, so every field is a [str] or [None]. *)
Record host_record : Type := mk_host {
  HostName : pystr;
  RecordType : pystr;
  Address : pystr;
  MXPref : pystr;
  TTL : pystr
}.

(* ------------------------------------------------------------------ *)
(** ** The network, exceptions, the log and the world *)

(** One GET request: [requests.get(url, params=params, timeout=30)]. *)
Record request : Type := mk_request {
  url : string;
  params : dict pystr
}.

Record Response : Type := mk_response {
  status_code : Z;
  response_text : string
}.

(** What one [requests.get] does: it raises a
    [requests.exceptions.RequestException] or returns a response. *)
Inductive outcome : Type :=
| RequestException (e : string)
| Got (response : Response).

(** The network answers a request knowing how many requests were sent
    before it. *)
Definition network := nat -> request -> outcome.

(** The exceptions the scripts raise, with what their message carries. *)
Inductive exn : Type :=
| FailedAfterRetries (max_retries : nat)
  (* Exception(f"Failed after {max_retries} retries.") *)
| UnexpectedExit
  (* Exception("Unexpected exit from retry loop.") *)
| KeyError (key : string)
| ParseError (body : string)
  (* raised by ET.fromstring *)
| ApiError (message : pystr)
  (* Exception(f"API Error: {errors[0].text}") *)
| UpdateFailed (body : string)
  (* Exception(f"Failed to update DNS records. Response: {response.text}") *)
| MissingVariables (missing : list string)
  (* ValueError(f"Missing required environment variables in .env: {missing}") *)
| CouldNotParse (domain_str : string)
  (* add_subdomain: ValueError(f"Could not parse domain string
     '{domain_str}' into SLD/TLD. Please ensure you provided a valid
     domain.") *)
| CouldNotParseDomain (domain_str : string)
  (* check_old_records: ValueError(f"Could not parse domain string
     '{domain_str}'. Please ensure it's a valid domain.") *)
| MustProvideSubdomain.
  (* ValueError("You must provide a subdomain. ...") *)

Inductive result (A : Type) : Type :=
| Return (a : A)
| Raise (e : exn).
Arguments Return {A} a.
Arguments Raise {A} e.

Inductive level : Type := DEBUG | INFO | WARNING | ERROR.

(** The log messages, with the values their f-strings interpolate. *)
Inductive message : Type :=
| ApiCallAttempt (attempt max_retries : nat) (command : pystr)
  (* f"API call attempt {attempt}/{max_retries}: {params['Command']}" *)
| ReceivedStatusCode (status : Z) (attempt : nat)
  (* add_subdomain: f"Received status code {status}, attempt {attempt}" *)
| Non200StatusCode (status : Z) (attempt : nat)
  (* check_old_records: f"Non-200 status code {status}, attempt {attempt}" *)
| RequestError (attempt : nat) (e : string)
  (* f"Request error on attempt {attempt}: {e}" *)
| Retrying
| RawApiResponse (body : string)
| ConfigError (e : exn)
| DomainError (e : exn)
| ParsedDomain (subdomain sld tld : string)
| FailedToFetch (e : exn)
| AbortedByUser
| FetchedRecords (n : nat)
| CouldNotRetrieve (e : exn)
| FinalRecordSet (n : nat)
| UpdatedSuccessfully
| FailedToUpdate (e : exn).

(** The world a script runs in: the requests sent so far and the calls
    made to the logger, oldest first. *)
Record world : Type := mk_world {
  sent : list request;
  log : list (level * message)
}.

Definition initial_world : world := mk_world [] [].

(** Computations that read and change the world and may raise. *)
Definition M (A : Type) : Type := world -> result A * world.

Definition ret {A} (a : A) : M A := fun w => (Return a, w).

Definition raise {A} (e : exn) : M A := fun w => (Raise e, w).

Definition bind {A B} (c : M A) (k : A -> M B) : M B :=
  fun w =>
    match c w with
    | (Return a, w') => k a w'
    | (Raise e, w') => (Raise e, w')
    end.

(** [try: c  except Exception as e: h(e)]. *)
Definition try_except {A} (c : M A) (h : exn -> M A) : M A :=
  fun w =>
    match c w with
    | (Return a, w') => (Return a, w')
    | (Raise e, w') => h e w'
    end.

Declare Scope py_scope.
Delimit Scope py_scope with py.
Notation "x <- c ;; k" := (bind c (fun x => k))
  (at level 61, c at next level, right associativity) : py_scope.
Notation "c ;; k" := (bind c (fun _ => k))
  (at level 61, right associativity) : py_scope.
Local Open Scope py_scope.

(** [logger.debug], [logger.info], [logger.warning], [logger.error]. *)
Definition logger (l : level) (m : message) : M unit :=
  fun w => (Return tt, mk_world (sent w) (log w ++ [(l, m)])).

(** [requests.get(url, params=params, timeout=30)], with the exception
    reified as an outcome so that the caller's [try] can branch on it. *)
Definition requests_get (net : network) (u : string) (p : dict pystr)
  : M outcome :=
  fun w =>
    let r := mk_request u p in
    (Return (net (length (sent w)) r), mk_world (sent w ++ [r]) (log w)).

(** [d[key]] on a dict, raising [KeyError] when the key is absent. *)
Definition subscript {V} (d : dict V) (key : string) : M V :=
  match dict_get d key with
  | Some v => ret v
  | None => raise (KeyError key)
  end.

(** [ET.fromstring(text)] for a parser [fromstring]. *)
Definition ET_fromstring (fromstring : string -> option Element)
  (body : string) : M Element :=
  match fromstring body with
  | Some root => ret root
  | None => raise (ParseError body)
  end.

(** How a run of [main] ends: [sys.exit(code)], or falling off the end. *)
Inductive termination : Type :=
| SysExit (code : Z)
| Finished.

(** [s] is [""] ([not s] for a [str]). *)
Definition is_empty (s : string) : bool := s =? "".

(** The attributes of [tldextract.extract(domain_str)] the scripts read. *)
Record ExtractResult : Type := mk_extract {
  ext_subdomain : string;
  ext_domain : string;
  ext_suffix : string
}.

(* ================================================================== *)
(** * add_subdomain.py *)

Module AddSubdomain.

Record config : Type := mk_config {
  API_URL : string;
  API_USER : string;
  API_KEY : string;
  USERNAME : string;
  CLIENT_IP : string;
  DEFAULT_TTL : string;
  DEFAULT_IP : string
}.

(** [os.getenv(name, default)]. *)
Definition getenv_default (getenv : string -> pystr) (name default : string)
  : pystr :=
  match getenv name with
  | Some v => Some v
  | None => Some default
  end.

(** [load_config()], for the environment [getenv] that [load_dotenv] leaves. *)
Definition load_config (getenv : string -> pystr) : result config :=
  let config : dict pystr :=
    [ ("API_URL", getenv "NAMECHEAP_API_URL");
      ("API_USER", getenv "NAMECHEAP_API_USER");
      ("API_KEY", getenv "NAMECHEAP_API_KEY");
      ("USERNAME", getenv "NAMECHEAP_USERNAME");
      ("CLIENT_IP", getenv "NAMECHEAP_CLIENT_IP");
      ("DEFAULT_TTL", getenv_default getenv "DEFAULT_TTL" "1800");
      ("DEFAULT_IP", getenv_default getenv "DEFAULT_IP" "1.2.3.4") ] in
  let missing :=
    map fst (comprehension_if (fun kv => negb (truthy (snd kv))) config) in
  let value k :=
    match dict_get config k with
    | Some (Some v) => v
    | _ => ""
    end in
  match missing with
  | _ :: _ => Raise (MissingVariables missing)
  | [] =>
      Return (mk_config (value "API_URL") (value "API_USER")
                (value "API_KEY") (value "USERNAME") (value "CLIENT_IP")
                (value "DEFAULT_TTL") (value "DEFAULT_IP"))
  end.

(** [parse_domain_parts(domain_str)], for [extract] = [tldextract.extract]. *)
Definition parse_domain_parts (extract : string -> ExtractResult)
  (domain_str : string) : result (string * string * string) :=
  let ext := extract domain_str in
  let subdomain := ext_subdomain ext in
  let sld := ext_domain ext in
  let tld := ext_suffix ext in
  if is_empty sld || is_empty tld then Raise (CouldNotParse domain_str)
  else if is_empty subdomain then Raise MustProvideSubdomain
  else Return (subdomain, sld, tld).

Section Transport.
Variable net : network.
Variable url : string.
Variable params : dict pystr.
Variable max_retries : nat.

(** The body of [for attempt in range(1, max_retries + 1)], over the
    attempts still to come. The loop ends by [return response], by the
    [raise] of the last attempt, or by falling out of the [for]. *)
Fixpoint attempts_loop (attempts : list nat) : M Response :=
  match attempts with
  | [] => raise UnexpectedExit
  | attempt :: rest =>
      command <- subscript params "Command" ;;
      logger INFO (ApiCallAttempt attempt max_retries command) ;;
      o <- requests_get net url params ;;
      returned <-
        match o with
        | Got response =>
            if (status_code response =? 200)%Z then ret (Some response)
            else
              logger WARNING
                (ReceivedStatusCode (status_code response) attempt) ;;
              ret None
        | RequestException e =>
            logger WARNING (RequestError attempt e) ;;
            ret None
        end ;;
      match returned with
      | Some response => ret response
      | None =>
          if (attempt <? max_retries)%nat then
            logger INFO Retrying ;;
            attempts_loop rest
          else raise (FailedAfterRetries max_retries)
      end
  end.

(** [call_namecheap_api_with_retries(url, params, max_retries)]. *)
Definition call_namecheap_api_with_retries : M Response :=
  attempts_loop (seq 1 max_retries).

End Transport.

Section Api.
Variable net : network.
Variable fromstring : string -> option Element.

(** The dict built from one [host] element in [get_dns_records]. *)
Definition host_dict (config : config) (host : Element) : host_record :=
  {| HostName := get host "Name";
     RecordType := get host "Type";
     Address := get host "Address";
     MXPref := get_default host "MXPref" "";
     TTL := get_default host "TTL" (DEFAULT_TTL config) |}.

(** The [hosts] list gathered from the normalised tree. *)
Definition gather_hosts (config : config) (root : Element)
  : list host_record :=
  for_append (host_dict config)
    (findall_descendant_child root "DomainDNSGetHostsResult" "host").

Definition get_dns_records (config : config) (sld tld : string)
  : M (list host_record) :=
  let params : dict pystr :=
    [ ("ApiUser", Some (API_USER config));
      ("ApiKey", Some (API_KEY config));
      ("UserName", Some (USERNAME config));
      ("Command", Some "namecheap.domains.dns.getHosts");
      ("ClientIp", Some (CLIENT_IP config));
      ("SLD", Some sld);
      ("TLD", Some tld) ] in
  response <- call_namecheap_api_with_retries net (API_URL config) params 3 ;;
  root <- ET_fromstring fromstring (response_text response) ;;
  let root := strip_namespaces root in
  let errors := findall_descendant root "Error" in
  match errors with
  | e :: _ => raise (ApiError (text e))
  | [] => ret (gather_hosts config root)
  end.

(** The five parameters [set_dns_records] adds for the [i]-th host. *)
Definition add_host_params (config : config) (params : dict pystr)
  (ih : nat * host_record) : dict pystr :=
  let (i, host) := ih in
  let params := dict_set params ("HostName" ++ str_of_nat i)%string
                  (HostName host) in
  let params := dict_set params ("RecordType" ++ str_of_nat i)%string
                  (RecordType host) in
  let params := dict_set params ("Address" ++ str_of_nat i)%string
                  (Address host) in
  let params := dict_set params ("MXPref" ++ str_of_nat i)%string
                  (if truthy (MXPref host) then MXPref host else Some "10") in
  dict_set params ("TTL" ++ str_of_nat i)%string
    (if truthy (TTL host) then TTL host else Some (DEFAULT_TTL config)).

(** [(not result) or (result.get("IsSuccess") != "true")], for the value
    of [root.find(...)]: [None] is false, and so is an element without
    children. *)
Definition update_failed (result : option Element) : bool :=
  match result with
  | None => true
  | Some result =>
      negb (element_bool result)
      || negb (py_eq (get result "IsSuccess") "true")
  end.

Definition set_dns_records (config : config) (sld tld : string)
  (hosts : list host_record) : M unit :=
  let params : dict pystr :=
    [ ("ApiUser", Some (API_USER config));
      ("ApiKey", Some (API_KEY config));
      ("UserName", Some (USERNAME config));
      ("Command", Some "namecheap.domains.dns.setHosts");
      ("ClientIp", Some (CLIENT_IP config));
      ("SLD", Some sld);
      ("TLD", Some tld) ] in
  let params := fold_left (add_host_params config) (enumerate1 hosts) params in
  response <- call_namecheap_api_with_retries net (API_URL config) params 3 ;;
  root <- ET_fromstring fromstring (response_text response) ;;
  let root := strip_namespaces root in
  let result := find_descendant root "DomainDNSSetHostsResult" in
  if update_failed result then raise (UpdateFailed (response_text response))
  else ret tt.

End Api.

(** The test of the comprehension of step 5 of [main]:
    [r["HostName"] == subdomain and r["RecordType"] == "A"]. *)
Definition same_A_record (subdomain : string) (r : host_record) : bool :=
  py_eq (HostName r) subdomain && py_eq (RecordType r) "A".

Definition new_record (config : config) (subdomain ip_address : string)
  : host_record :=
  {| HostName := Some subdomain;
     RecordType := Some "A";
     Address := Some ip_address;
     MXPref := Some "";
     TTL := Some (DEFAULT_TTL config) |}.

(** Step 5 of [main]: the value of [updated_records] after the
    comprehension and the [append]. *)
Definition updated_records (config : config)
  (existing_records : list host_record) (subdomain ip_address : string)
  : list host_record :=
  let updated_records :=
    comprehension_if (fun r => negb (same_A_record subdomain r))
      existing_records in
  updated_records ++ [new_record config subdomain ip_address].

(** The parsed command line. *)
Record Namespace : Type := mk_args {
  domain : string;
  ip : pystr
}.

(** [main()]. [getenv] is the environment, [extract] is
    [tldextract.extract], [args] the parsed command line and [confirm] the
    value of [input(...).strip().lower()]. What [print] writes is not
    modelled. The definition starts where [parser.parse_args()] has
    returned [args]: the exits of [argparse] itself, and an [EOFError] of
    [input], are not part of it. *)
Definition main (net : network) (fromstring : string -> option Element)
  (getenv : string -> pystr) (extract : string -> ExtractResult)
  (args : Namespace) (confirm : string) : M termination :=
  match load_config getenv with
  | Raise e => logger ERROR (ConfigError e) ;; ret (SysExit 1)
  | Return config =>
  match parse_domain_parts extract (domain args) with
  | Raise e => logger ERROR (DomainError e) ;; ret (SysExit 1)
  | Return (subdomain, sld, tld) =>
  let ip_address :=
    match ip args with
    | Some a => if is_empty a then DEFAULT_IP config else a
    | None => DEFAULT_IP config
    end in
  if negb ((confirm =? "y") || (confirm =? "yes")) then
    logger INFO AbortedByUser ;; ret (SysExit 0)
  else
    fetched <-
      try_except
        (existing_records <- get_dns_records net fromstring config sld tld ;;
         logger INFO (FetchedRecords (length existing_records)) ;;
         ret (inr existing_records))
        (fun e => logger ERROR (CouldNotRetrieve e) ;; ret (inl (SysExit 1))) ;;
    match fetched with
    | inl exit => ret exit
    | inr existing_records =>
        let updated_records :=
          updated_records config existing_records subdomain ip_address in
        logger INFO (FinalRecordSet (length updated_records)) ;;
        try_except
          (set_dns_records net fromstring config sld tld updated_records ;;
           logger INFO UpdatedSuccessfully ;;
           ret Finished)
          (fun e => logger ERROR (FailedToUpdate e) ;; ret (SysExit 1))
    end
  end
  end.

End AddSubdomain.

(* ================================================================== *)
(** * check_old_records.py *)

Module CheckOldRecords.

Record config : Type := mk_config {
  API_URL : string;
  API_USER : string;
  API_KEY : string;
  USERNAME : string;
  CLIENT_IP : string
}.

Definition load_config (getenv : string -> pystr) : result config :=
  let config : dict pystr :=
    [ ("API_URL", getenv "NAMECHEAP_API_URL");
      ("API_USER", getenv "NAMECHEAP_API_USER");
      ("API_KEY", getenv "NAMECHEAP_API_KEY");
      ("USERNAME", getenv "NAMECHEAP_USERNAME");
      ("CLIENT_IP", getenv "NAMECHEAP_CLIENT_IP") ] in
  let missing :=
    map fst (comprehension_if (fun kv => negb (truthy (snd kv))) config) in
  let value k :=
    match dict_get config k with
    | Some (Some v) => v
    | _ => ""
    end in
  match missing with
  | _ :: _ => Raise (MissingVariables missing)
  | [] =>
      Return (mk_config (value "API_URL") (value "API_USER")
                (value "API_KEY") (value "USERNAME") (value "CLIENT_IP"))
  end.

(** Here an empty subdomain is accepted. *)
Definition parse_domain_parts (extract : string -> ExtractResult)
  (domain_str : string) : result (string * string * string) :=
  let ext := extract domain_str in
  let subdomain := ext_subdomain ext in
  let sld := ext_domain ext in
  let tld := ext_suffix ext in
  if is_empty sld || is_empty tld then
    Raise (CouldNotParseDomain domain_str)
  else Return (subdomain, sld, tld).

Section Transport.
Variable net : network.
Variable url : string.
Variable params : dict pystr.
Variable max_retries : nat.

Fixpoint attempts_loop (attempts : list nat) : M Response :=
  match attempts with
  | [] => raise UnexpectedExit
  | attempt :: rest =>
      command <- subscript params "Command" ;;
      logger INFO (ApiCallAttempt attempt max_retries command) ;;
      o <- requests_get net url params ;;
      returned <-
        match o with
        | Got response =>
            if (status_code response =? 200)%Z then ret (Some response)
            else
              logger WARNING
                (Non200StatusCode (status_code response) attempt) ;;
              ret None
        | RequestException e =>
            logger WARNING (RequestError attempt e) ;;
            ret None
        end ;;
      match returned with
      | Some response => ret response
      | None =>
          if (attempt <? max_retries)%nat then
            logger INFO Retrying ;;
            attempts_loop rest
          else raise (FailedAfterRetries max_retries)
      end
  end.

Definition call_namecheap_api_with_retries : M Response :=
  attempts_loop (seq 1 max_retries).

End Transport.

Section Api.
Variable net : network.
Variable fromstring : string -> option Element.

(** The dict built from one [host] element: [TTL] is [host.get("TTL")],
    with no default. *)
Definition host_dict (host : Element) : host_record :=
  {| HostName := get host "Name";
     RecordType := get host "Type";
     Address := get host "Address";
     MXPref := get_default host "MXPref" "";
     TTL := get host "TTL" |}.

Definition gather_hosts (root : Element) : list host_record :=
  for_append host_dict
    (findall_descendant_child root "DomainDNSGetHostsResult" "host").

(** [errors and len(errors) > 0 and errors[0].text]. *)
Definition error_reported (errors : list Element) : bool :=
  match errors with
  | [] => false
  | e :: _ => (0 <? length errors)%nat && truthy (text e)
  end.

Definition get_dns_records (config : config) (sld tld : string)
  : M (list host_record) :=
  let params : dict pystr :=
    [ ("ApiUser", Some (API_USER config));
      ("ApiKey", Some (API_KEY config));
      ("UserName", Some (USERNAME config));
      ("Command", Some "namecheap.domains.dns.getHosts");
      ("ClientIp", Some (CLIENT_IP config));
      ("SLD", Some sld);
      ("TLD", Some tld) ] in
  response <- call_namecheap_api_with_retries net (API_URL config) params 3 ;;
  logger DEBUG (RawApiResponse (response_text response)) ;;
  root <- ET_fromstring fromstring (response_text response) ;;
  let root := strip_namespaces root in
  let errors := findall_descendant root "Error" in
  if error_reported errors then
    raise (ApiError (match errors with e :: _ => text e | [] => None end))
  else ret (gather_hosts root).

End Api.

(** [main()]: fetches and prints; what [print] writes is not modelled.
    The definition starts where [parser.parse_args()] has returned: the
    exits of [argparse] itself are not part of it. *)
Definition main (net : network) (fromstring : string -> option Element)
  (getenv : string -> pystr) (extract : string -> ExtractResult)
  (domain : string) : M termination :=
  match load_config getenv with
  | Raise e => logger ERROR (ConfigError e) ;; ret (SysExit 1)
  | Return config =>
  match parse_domain_parts extract domain with
  | Raise e => logger ERROR (DomainError e) ;; ret (SysExit 1)
  | Return (subdomain, sld, tld) =>
      logger INFO (ParsedDomain subdomain sld tld) ;;
      try_except
        (records <- get_dns_records net fromstring config sld tld ;;
         ret Finished)
        (fun e => logger ERROR (FailedToFetch e) ;; ret (SysExit 1))
  end
  end.

End CheckOldRecords.

(* ================================================================== *)
(** * Notions used to state the properties *)

(** The records the comprehension of step 5 keeps. *)
Definition kept (subdomain : string) (existing_records : list host_record)
  : list host_record :=
  filter (fun r => negb (AddSubdomain.same_A_record subdomain r))
    existing_records.

(** Letter case: DNS names are compared without regard to the case of the
    ASCII letters. *)
Definition ascii_lower (c : ascii) : ascii :=
  let n := nat_of_ascii c in
  if ((65 <=? n) && (n <=? 90))%nat then ascii_of_nat (n + 32) else c.

Fixpoint lower (s : string) : string :=
  match s with
  | EmptyString => EmptyString
  | String c s' => String (ascii_lower c) (lower s')
  end.

(** Two different strings that differ only in letter case. *)
Definition differ_only_in_case (a b : string) : Prop :=
  a <> b /\ lower a = lower b.

(** An A record whose host name is [subdomain] up to letter case: the
    records that denote the DNS name of [subdomain]. *)
Definition A_record_of_name (subdomain : string) (r : host_record) : bool :=
  match HostName r with
  | Some name => lower name =? lower subdomain
  | None => false
  end
  && py_eq (RecordType r) "A".

(** The response an attempt returns to the caller, if it does: the loop
    returns on status 200 and on nothing else. *)
Definition accepted (o : outcome) : option Response :=
  match o with
  | Got response =>
      if (status_code response =? 200)%Z then Some response else None
  | RequestException _ => None
  end.

(** A status code in the 2xx class. *)
Definition is_2xx (status : Z) : bool :=
  ((200 <=? status) && (status <? 300))%Z.

(** The retry policy: at most [n] attempts, on the replies [i], [i+1], ...;
    an attempt that is not accepted is followed by the next one, whatever
    made it fail. The result is the number of requests made and the
    response returned, if any. *)
Fixpoint retry_policy (reply : nat -> outcome) (i n : nat)
  : nat * option Response :=
  match n with
  | 0 => (0, None)
  | S n' =>
      match accepted (reply i) with
      | Some response => (1, Some response)
      | None =>
          let (k, r) := retry_policy reply (S i) n' in (S k, r)
      end
  end.

(** The attempt numbers the log records, oldest first. *)
Definition attempts_logged (w : world) : list nat :=
  flat_map (fun lm =>
              match snd lm with
              | ApiCallAttempt attempt _ _ => [attempt]
              | _ => []
              end) (log w).

(** The requests of the world that are pushes ([setHosts]). *)
Definition is_push (r : request) : bool :=
  match dict_get (params r) "Command" with
  | Some command => py_eq command "namecheap.domains.dns.setHosts"
  | None => false
  end.

Definition pushes (w : world) : list request := filter is_push (sent w).

(** The request [get_dns_records] of [add_subdomain.py] sends. *)
Definition getHosts_request (config : AddSubdomain.config)
  (sld tld : string) : request :=
  mk_request (AddSubdomain.API_URL config)
    [ ("ApiUser", Some (AddSubdomain.API_USER config));
      ("ApiKey", Some (AddSubdomain.API_KEY config));
      ("UserName", Some (AddSubdomain.USERNAME config));
      ("Command", Some "namecheap.domains.dns.getHosts");
      ("ClientIp", Some (AddSubdomain.CLIENT_IP config));
      ("SLD", Some sld);
      ("TLD", Some tld) ].

(** The three ways the fetch phase of [add_subdomain.py] fails in the
    world [w]: the transport gives up, the body of the accepted response
    is not XML, or the normalised tree holds an [Error] element. *)
Inductive fetch_fails (net : network)
  (fromstring : string -> option Element) (config : AddSubdomain.config)
  (sld tld : string) (w : world) : exn -> Prop :=
| transport_failure :
    snd (retry_policy (fun j => net j (getHosts_request config sld tld))
           (length (sent w)) 3) = None ->
    fetch_fails net fromstring config sld tld w (FailedAfterRetries 3)
| unparsable_xml response :
    snd (retry_policy (fun j => net j (getHosts_request config sld tld))
           (length (sent w)) 3) = Some response ->
    fromstring (response_text response) = None ->
    fetch_fails net fromstring config sld tld w
      (ParseError (response_text response))
| api_errors response root e errors :
    snd (retry_policy (fun j => net j (getHosts_request config sld tld))
           (length (sent w)) 3) = Some response ->
    fromstring (response_text response) = Some root ->
    findall_descendant (strip_namespaces root) "Error" = e :: errors ->
    fetch_fails net fromstring config sld tld w (ApiError (text e)).

(** The request [get_dns_records] of [check_old_records.py] sends. *)
Definition check_getHosts_request (config : CheckOldRecords.config)
  (sld tld : string) : request :=
  mk_request (CheckOldRecords.API_URL config)
    [ ("ApiUser", Some (CheckOldRecords.API_USER config));
      ("ApiKey", Some (CheckOldRecords.API_KEY config));
      ("UserName", Some (CheckOldRecords.USERNAME config));
      ("Command", Some "namecheap.domains.dns.getHosts");
      ("ClientIp", Some (CheckOldRecords.CLIENT_IP config));
      ("SLD", Some sld);
      ("TLD", Some tld) ].

(** What [get_dns_records] of [add_subdomain.py] makes of the response the
    transport returned, if it returned one. *)
Definition add_fetch_result (fromstring : string -> option Element)
  (config : AddSubdomain.config) (r : option Response)
  : result (list host_record) :=
  match r with
  | None => Raise (FailedAfterRetries 3)
  | Some response =>
      match fromstring (response_text response) with
      | None => Raise (ParseError (response_text response))
      | Some root =>
          match findall_descendant (strip_namespaces root) "Error" with
          | e :: _ => Raise (ApiError (text e))
          | [] =>
              Return (AddSubdomain.gather_hosts config
                        (strip_namespaces root))
          end
      end
  end.

(** The same for [check_old_records.py]. *)
Definition check_fetch_result (fromstring : string -> option Element)
  (r : option Response) : result (list host_record) :=
  match r with
  | None => Raise (FailedAfterRetries 3)
  | Some response =>
      match fromstring (response_text response) with
      | None => Raise (ParseError (response_text response))
      | Some root =>
          match findall_descendant (strip_namespaces root) "Error" with
          | e :: _ =>
              if truthy (text e) then Raise (ApiError (text e))
              else Return (CheckOldRecords.gather_hosts
                             (strip_namespaces root))
          | [] =>
              Return (CheckOldRecords.gather_hosts (strip_namespaces root))
          end
      end
  end.

(* ================================================================== *)
(** * Sample inputs *)

Module Sample.

Definition api_url : string := "https://api.namecheap.com/xml.response".

Definition config : AddSubdomain.config :=
  AddSubdomain.mk_config api_url "alice" "k3y" "alice" "203.0.113.7"
    "1800" "1.2.3.4".

Definition check_config : CheckOldRecords.config :=
  CheckOldRecords.mk_config api_url "alice" "k3y" "alice" "203.0.113.7".

Definition getenv (name : string) : pystr :=
  dict_get
    [ ("NAMECHEAP_API_URL", api_url);
      ("NAMECHEAP_API_USER", "alice");
      ("NAMECHEAP_API_KEY", "k3y");
      ("NAMECHEAP_USERNAME", "alice");
      ("NAMECHEAP_CLIENT_IP", "203.0.113.7") ] name.

(** [tldextract.extract] on the one domain the samples use. *)
Definition extract (domain_str : string) : ExtractResult :=
  if domain_str =? "dev.example.com" then mk_extract "dev" "example" "com"
  else mk_extract "" "" "".

Definition args : AddSubdomain.Namespace :=
  AddSubdomain.mk_args "dev.example.com" (Some "9.9.9.9").

(** The namespace the parser puts in front of every tag. *)
Definition ns (t : string) : string :=
  ("{http://api.namecheap.com/xml.response}" ++ t)%string.

(** A [setHosts] response as the registrar documents it: the result
    element carries [IsSuccess='true'] and has no children. *)
Definition setHosts_ok_body : string :=
  "<ApiResponse Status='OK' xmlns='http://api.namecheap.com/xml.response'><Errors/><RequestedCommand>namecheap.domains.dns.setHosts</RequestedCommand><CommandResponse Type='namecheap.domains.dns.setHosts'><DomainDNSSetHostsResult Domain='example.com' IsSuccess='true'/></CommandResponse></ApiResponse>".

Definition setHosts_ok_tree : Element :=
  Elem (ns "ApiResponse") [("Status", "OK")] None
    [ Elem (ns "Errors") [] None [];
      Elem (ns "RequestedCommand") []
        (Some "namecheap.domains.dns.setHosts") [];
      Elem (ns "CommandResponse")
        [("Type", "namecheap.domains.dns.setHosts")] None
        [ Elem (ns "DomainDNSSetHostsResult")
            [("Domain", "example.com"); ("IsSuccess", "true")] None [] ] ].

(** The same response with a [Warnings] child in the result element. *)
Definition setHosts_warnings_body : string :=
  "<ApiResponse Status='OK' xmlns='http://api.namecheap.com/xml.response'><Errors/><CommandResponse Type='namecheap.domains.dns.setHosts'><DomainDNSSetHostsResult Domain='example.com' IsSuccess='true'><Warnings/></DomainDNSSetHostsResult></CommandResponse></ApiResponse>".

Definition setHosts_warnings_tree : Element :=
  Elem (ns "ApiResponse") [("Status", "OK")] None
    [ Elem (ns "Errors") [] None [];
      Elem (ns "CommandResponse")
        [("Type", "namecheap.domains.dns.setHosts")] None
        [ Elem (ns "DomainDNSSetHostsResult")
            [("Domain", "example.com"); ("IsSuccess", "true")] None
            [ Elem (ns "Warnings") [] None [] ] ] ].

(** A [getHosts] response with two hosts; the second has no [TTL]. *)
Definition getHosts_body : string :=
  "<ApiResponse Status='OK' xmlns='http://api.namecheap.com/xml.response'><Errors/><CommandResponse Type='namecheap.domains.dns.getHosts'><DomainDNSGetHostsResult Domain='example.com'><host Name='DEV' Type='A' Address='1.1.1.1' MXPref='10' TTL='300'/><host Name='www' Type='CNAME' Address='example.com.'/></DomainDNSGetHostsResult></CommandResponse></ApiResponse>".

Definition host_DEV : Element :=
  Elem (ns "host")
    [("Name", "DEV"); ("Type", "A"); ("Address", "1.1.1.1");
     ("MXPref", "10"); ("TTL", "300")] None [].

Definition host_www : Element :=
  Elem (ns "host")
    [("Name", "www"); ("Type", "CNAME"); ("Address", "example.com.")]
    None [].

Definition getHosts_tree : Element :=
  Elem (ns "ApiResponse") [("Status", "OK")] None
    [ Elem (ns "Errors") [] None [];
      Elem (ns "CommandResponse")
        [("Type", "namecheap.domains.dns.getHosts")] None
        [ Elem (ns "DomainDNSGetHostsResult") [("Domain", "example.com")]
            None [host_DEV; host_www] ] ].

(** A response whose [Error] element is empty. *)
Definition empty_error_body : string :=
  "<ApiResponse Status='ERROR' xmlns='http://api.namecheap.com/xml.response'><Errors><Error Number='0'/></Errors></ApiResponse>".

Definition empty_error_tree : Element :=
  Elem (ns "ApiResponse") [("Status", "ERROR")] None
    [ Elem (ns "Errors") [] None
        [ Elem (ns "Error") [("Number", "0")] None [] ] ].

(** The parser on the sample bodies; any other text is not XML. *)
Definition fromstring (body : string) : option Element :=
  dict_get
    [ (setHosts_ok_body, setHosts_ok_tree);
      (setHosts_warnings_body, setHosts_warnings_tree);
      (getHosts_body, getHosts_tree);
      (empty_error_body, empty_error_tree) ] body.

(** Networks: every request fails; every request gets status 204; the
    first two requests fail in the two different ways and the third gets
    the sample [getHosts] response. *)
Definition net_down : network :=
  fun _ _ => RequestException "connection refused".

Definition net_204 : network :=
  fun _ _ => Got (mk_response 204 "").

Definition net_third_time : network :=
  fun n _ =>
    match n with
    | 0 => RequestException "timed out"
    | 1 => Got (mk_response 503 "")
    | _ => Got (mk_response 200 getHosts_body)
    end.

(** A network that answers by command: the sample host list for
    [getHosts], and [body] for [setHosts]. *)
Definition net_zone (body : string) : network :=
  fun _ r =>
    if is_push r then Got (mk_response 200 body)
    else Got (mk_response 200 getHosts_body).

(** A network that answers every request with [body]. *)
Definition net_const (body : string) : network :=
  fun _ _ => Got (mk_response 200 body).

Definition some_params : dict pystr :=
  [("Command", Some "namecheap.domains.dns.getHosts")].

End Sample.

(* ================================================================== *)
(** * Further notions *)

(** ['}' in s]. *)
Definition has_brace (s : string) : bool :=
  match after_brace s with
  | Some _ => true
  | None => false
  end.

(** A tag as the parser writes it for the local name [local] in the
    namespace [uri]. *)
Definition qualified (uri local : string) : string :=
  ("{" ++ uri ++ "}" ++ local)%string.

(** The node itself, without its children. *)
Definition node_data (e : Element) : string * dict string * pystr :=
  (tag e, attrib e, text e).

(** A record with the default put in the place of a [TTL] that is
    [None]. *)
Definition with_default_ttl (default : string) (r : host_record)
  : host_record :=
  {| HostName := HostName r;
     RecordType := RecordType r;
     Address := Address r;
     MXPref := MXPref r;
     TTL := match TTL r with
            | Some ttl => Some ttl
            | None => Some default
            end |}.

(** The attempt numbers that the warnings of the log name, oldest
    first. *)
Definition warned_attempts (w : world) : list nat :=
  flat_map (fun lm =>
              match lm with
              | (WARNING, ReceivedStatusCode _ attempt) => [attempt]
              | (WARNING, Non200StatusCode _ attempt) => [attempt]
              | (WARNING, RequestError attempt _) => [attempt]
              | _ => []
              end) (log w).

(** The request [set_dns_records] sends for [hosts]. *)
Definition setHosts_request (config : AddSubdomain.config)
  (sld tld : string) (hosts : list host_record) : request :=
  mk_request (AddSubdomain.API_URL config)
    (fold_left (AddSubdomain.add_host_params config) (enumerate1 hosts)
       [ ("ApiUser", Some (AddSubdomain.API_USER config));
         ("ApiKey", Some (AddSubdomain.API_KEY config));
         ("UserName", Some (AddSubdomain.USERNAME config));
         ("Command", Some "namecheap.domains.dns.setHosts");
         ("ClientIp", Some (AddSubdomain.CLIENT_IP config));
         ("SLD", Some sld);
         ("TLD", Some tld) ]).

(** The names of the five parameters of a host. *)
Inductive host_field : Type :=
| FHostName | FRecordType | FAddress | FMXPref | FTTL.

Definition field_name (f : host_field) : string :=
  match f with
  | FHostName => "HostName"
  | FRecordType => "RecordType"
  | FAddress => "Address"
  | FMXPref => "MXPref"
  | FTTL => "TTL"
  end.

(** The key of field [f] of the [i]-th host: [f"HostName{i}"] and so
    on. *)
Definition field_key (f : host_field) (i : nat) : string :=
  (field_name f ++ str_of_nat i)%string.

(** The value [set_dns_records] sends for field [f] of [host]. *)
Definition field_value (config : AddSubdomain.config) (f : host_field)
  (host : host_record) : pystr :=
  match f with
  | FHostName => HostName host
  | FRecordType => RecordType host
  | FAddress => Address host
  | FMXPref => if truthy (MXPref host) then MXPref host else Some "10"
  | FTTL =>
      if truthy (TTL host) then TTL host
      else Some (AddSubdomain.DEFAULT_TTL config)
  end.

(** What [set_dns_records] makes of the response the transport returned,
    if it returned one. *)
Definition push_result (fromstring : string -> option Element)
  (r : option Response) : result unit :=
  match r with
  | None => Raise (FailedAfterRetries 3)
  | Some response =>
      match fromstring (response_text response) with
      | None => Raise (ParseError (response_text response))
      | Some root =>
          if AddSubdomain.update_failed
               (find_descendant (strip_namespaces root)
                  "DomainDNSSetHostsResult")
          then Raise (UpdateFailed (response_text response))
          else Return tt
      end
  end.

(** The value of [ip_address] in [main]: [--ip], or the configured
    default when it is absent or empty. *)
Definition chosen_ip (config : AddSubdomain.config)
  (args : AddSubdomain.Namespace) : string :=
  match AddSubdomain.ip args with
  | Some a => if is_empty a then AddSubdomain.DEFAULT_IP config else a
  | None => AddSubdomain.DEFAULT_IP config
  end.

(** The requests of the world that are fetches ([getHosts]). *)
Definition is_fetch (r : request) : bool :=
  match dict_get (params r) "Command" with
  | Some command => py_eq command "namecheap.domains.dns.getHosts"
  | None => false
  end.

(** The seven parameters both commands start from. *)
Definition base_params (config : AddSubdomain.config)
  (sld tld command : string) : dict pystr :=
  [ ("ApiUser", Some (AddSubdomain.API_USER config));
    ("ApiKey", Some (AddSubdomain.API_KEY config));
    ("UserName", Some (AddSubdomain.USERNAME config));
    ("Command", Some command);
    ("ClientIp", Some (AddSubdomain.CLIENT_IP config));
    ("SLD", Some sld);
    ("TLD", Some tld) ].

Definition command_key (k : string) : Prop :=
  In k ["ApiUser"; "ApiKey"; "UserName"; "Command"; "ClientIp"; "SLD"; "TLD"].

(** Step 1 of the reconciliation in the words of the specification: of
    the existing records, the ones with [hostName == desiredHostName] and
    [recordType == "A"] are discarded, every other record is kept, and the
    kept records stay in their order. *)
Inductive kept_in_order (desiredHostName : string)
  : list host_record -> list host_record -> Prop :=
| kept_none : kept_in_order desiredHostName [] []
| kept_discard r existing kept_records :
    HostName r = Some desiredHostName ->
    RecordType r = Some "A" ->
    kept_in_order desiredHostName existing kept_records ->
    kept_in_order desiredHostName (r :: existing) kept_records
| kept_keep r existing kept_records :
    ~ (HostName r = Some desiredHostName /\ RecordType r = Some "A") ->
    kept_in_order desiredHostName existing kept_records ->
    kept_in_order desiredHostName (r :: existing) (r :: kept_records).

(** A plain tag name: not empty, and made of ASCII letters, digits, [_]
    and [-] only, so that [".//" + t] is the path of one descendant step
    with a literal tag and nothing else. *)
Definition tag_char (c : ascii) : bool :=
  let n := nat_of_ascii c in
  ((65 <=? n) && (n <=? 90) || (97 <=? n) && (n <=? 122)
   || (48 <=? n) && (n <=? 57) || (n =? 95) || (n =? 45))%nat.

Fixpoint tag_chars (t : string) : bool :=
  match t with
  | EmptyString => true
  | String c t' => tag_char c && tag_chars t'
  end.

Definition plain_tag (t : string) : bool :=
  negb (t =? "") && tag_chars t.

(** Further sample inputs. *)
Module Cases.

(** An environment that sets [DEFAULT_TTL] to the empty string. *)
Definition getenv_empty_ttl (name : string) : pystr :=
  if name =? "DEFAULT_TTL" then Some "" else Sample.getenv name.

(** [tldextract.extract] on a bare registrable domain and on a name under
    a two-label suffix. *)
Definition extract (domain_str : string) : ExtractResult :=
  if domain_str =? "example.com" then mk_extract "" "example" "com"
  else if domain_str =? "dev.example.co.uk"
       then mk_extract "dev" "example" "co.uk"
       else mk_extract "" "" "".

Definition two_hosts : list host_record :=
  [ mk_host (Some "www") (Some "CNAME") (Some "example.com.") (Some "")
      (Some "");
    mk_host (Some "mail") (Some "MX") (Some "mx.example.com.") (Some "5")
      None ].

End Cases.

(* ================================================================== *)
(** * Properties *)

(** ** The list idioms *)

Lemma comprehension_if_acc {A} (p : A -> bool) (l acc : list A) :
  fold_left (fun acc x => if p x then acc ++ [x] else acc) l acc
  = acc ++ filter p l.
Proof.
  revert acc. induction l as [|x l IH]; intros acc; simpl.
  - now rewrite app_nil_r.
  - rewrite IH. destruct (p x); [|reflexivity].
    now rewrite <- app_assoc.
Qed.

Lemma comprehension_if_filter {A} (p : A -> bool) (l : list A) :
  comprehension_if p l = filter p l.
Proof. unfold comprehension_if. now rewrite comprehension_if_acc. Qed.

Lemma for_append_acc {A B} (f : A -> B) (l : list A) (acc : list B) :
  fold_left (fun acc x => acc ++ [f x]) l acc = acc ++ map f l.
Proof.
  revert acc. induction l as [|x l IH]; intros acc; simpl.
  - now rewrite app_nil_r.
  - rewrite IH. now rewrite <- app_assoc.
Qed.

Lemma for_append_map {A B} (f : A -> B) (l : list A) :
  for_append f l = map f l.
Proof. unfold for_append. now rewrite for_append_acc. Qed.

Lemma filter_negb_filter {A} (p : A -> bool) (l : list A) :
  filter p (filter (fun x => negb (p x)) l) = [].
Proof.
  induction l as [|x l IH]; simpl; [reflexivity|].
  destruct (p x) eqn:E; simpl; [exact IH|].
  now rewrite E.
Qed.

Lemma filter_idem {A} (p : A -> bool) (l : list A) :
  filter p (filter p l) = filter p l.
Proof.
  induction l as [|x l IH]; simpl; [reflexivity|].
  destruct (p x) eqn:E; simpl; [|exact IH].
  now rewrite E, IH.
Qed.

(** ** Reconciliation: step 5 of [AddSubdomain.main] *)

Section Reconciliation.
Import AddSubdomain.
Variable config : AddSubdomain.config.

Lemma updated_records_eq existing_records subdomain ip_address :
  updated_records config existing_records subdomain ip_address
  = kept subdomain existing_records
    ++ [new_record config subdomain ip_address].
Proof.
  unfold updated_records, kept. now rewrite comprehension_if_filter.
Qed.

Lemma new_record_same_A subdomain ip_address :
  same_A_record subdomain (new_record config subdomain ip_address) = true.
Proof.
  unfold same_A_record, new_record; simpl.
  now rewrite String.eqb_refl.
Qed.

Lemma kept_no_same_A subdomain existing_records :
  filter (same_A_record subdomain) (kept subdomain existing_records) = [].
Proof. apply filter_negb_filter. Qed.

(** C1. Whatever the fetched records are, and however many of them are A
    records of the desired host name, the record set that step 5 builds
    holds exactly one record whose [HostName] is the desired host name and
    whose [RecordType] is ["A"]. *)
Theorem single_A_invariant :
  forall (existing_records : list host_record)
         (subdomain ip_address : string),
    length (filter (same_A_record subdomain)
              (updated_records config existing_records subdomain ip_address))
    = 1.
Proof.
  intros l sub ip.
  rewrite updated_records_eq, filter_app, kept_no_same_A. simpl.
  now rewrite new_record_same_A.
Qed.

Lemma same_A_record_true_iff subdomain r :
  same_A_record subdomain r = true
  <-> HostName r = Some subdomain /\ RecordType r = Some "A".
Proof.
  unfold same_A_record, py_eq.
  destruct (HostName r) as [h|], (RecordType r) as [t|]; simpl.
  - destruct (String.eqb_spec h subdomain) as [->|Hh];
      destruct (String.eqb_spec t "A") as [->|Ht]; simpl.
    + split; auto.
    + split; [discriminate|]. intros [_ H]. injection H as H.
      contradiction.
    + split; [discriminate|]. intros [H _]. injection H as H.
      contradiction.
    + split; [discriminate|]. intros [H _]. injection H as H.
      contradiction.
  - destruct (h =? subdomain); simpl; split; try discriminate;
      intros [_ H]; discriminate.
  - split; [discriminate|]. intros [H _]. discriminate.
  - split; [discriminate|]. intros [H _]. discriminate.
Qed.

Lemma kept_is_kept_in_order subdomain existing_records :
  kept_in_order subdomain existing_records (kept subdomain existing_records).
Proof.
  unfold kept. induction existing_records as [|r l IH]; simpl.
  - constructor.
  - destruct (same_A_record subdomain r) eqn:E; simpl.
    + apply same_A_record_true_iff in E. destruct E as [Hn Ht].
      now apply kept_discard.
    + apply kept_keep; [|exact IH]. intros H.
      apply same_A_record_true_iff in H. congruence.
Qed.

Lemma kept_in_order_unique subdomain existing_records k1 :
  kept_in_order subdomain existing_records k1 ->
  forall k2, kept_in_order subdomain existing_records k2 -> k1 = k2.
Proof.
  induction 1 as [|r l k Hn Ht _ IH|r l k Hno _ IH]; intros k2 H2.
  - now inversion H2.
  - inversion H2; subst; [now apply IH|]. tauto.
  - inversion H2; subst; [tauto|]. f_equal. now apply IH.
Qed.

(** C4. The record set of step 5 is the kept records followed by exactly
    one new record as its last element. The kept records are the existing
    records that are not an A record of the desired host name, each one as
    it was and in the order they came in; the new record has the desired
    host name, type ["A"], the desired address, an empty [MXPref] and the
    default TTL. From no records at all the result is the new record
    alone. *)
Theorem updated_records_kept_then_new :
  forall (existing_records : list host_record)
         (subdomain ip_address : string),
    let newRecord :=
      {| HostName := Some subdomain;
         RecordType := Some "A";
         Address := Some ip_address;
         MXPref := Some "";
         TTL := Some (DEFAULT_TTL config) |} in
    (exists kept_records,
        kept_in_order subdomain existing_records kept_records
        /\ (forall k,
              kept_in_order subdomain existing_records k ->
              k = kept_records)
        /\ updated_records config existing_records subdomain ip_address
           = kept_records ++ [newRecord]
        /\ last (updated_records config existing_records subdomain
                   ip_address) newRecord
           = newRecord)
    /\ updated_records config [] subdomain ip_address = [newRecord].
Proof.
  intros l sub ip newRecord. split; [|reflexivity].
  exists (kept sub l).
  pose proof (kept_is_kept_in_order sub l) as Hk.
  split; [exact Hk|]. split; [|split].
  - intros k H. symmetry. now apply (kept_in_order_unique sub l).
  - apply updated_records_eq.
  - rewrite updated_records_eq. apply last_last.
Qed.

(** C5. Running step 5 on its own result, for the same host name and
    address, gives that result again: the same list, hence the same set of
    records. *)
Theorem updated_records_idempotent :
  forall (existing_records : list host_record)
         (subdomain ip_address : string),
    let once :=
      updated_records config existing_records subdomain ip_address in
    let twice := updated_records config once subdomain ip_address in
    twice = once /\ (forall r, In r twice <-> In r once).
Proof.
  intros l sub ip once twice.
  assert (E : twice = once).
  { unfold twice, once. rewrite !updated_records_eq.
    unfold kept at 1. rewrite filter_app. fold (kept sub (kept sub l)).
    unfold kept at 1 2. rewrite filter_idem. simpl.
    rewrite new_record_same_A. simpl. now rewrite app_nil_r. }
  split; [exact E|]. intros r. now rewrite E.
Qed.

(** The two scenarios of the specification. *)
Example updated_records_replaces_dev :
  updated_records config
    [ mk_host (Some "dev") (Some "A") (Some "1.1.1.1") (Some "") (Some "60");
      mk_host (Some "www") (Some "A") (Some "2.2.2.2") (Some "") (Some "60") ]
    "dev" "9.9.9.9"
  = [ mk_host (Some "www") (Some "A") (Some "2.2.2.2") (Some "") (Some "60");
      mk_host (Some "dev") (Some "A") (Some "9.9.9.9") (Some "")
        (Some (DEFAULT_TTL config)) ].
Proof. reflexivity. Qed.

Example updated_records_first_record :
  updated_records config [] "api" "5.5.5.5"
  = [ mk_host (Some "api") (Some "A") (Some "5.5.5.5") (Some "")
        (Some (DEFAULT_TTL config)) ].
Proof. reflexivity. Qed.

(** Two stale A records of the name and a record of another type at it. *)
Example updated_records_collapses_duplicates :
  updated_records config
    [ mk_host (Some "dev") (Some "A") (Some "1.1.1.1") (Some "") None;
      mk_host (Some "dev") (Some "TXT") (Some "v=1") (Some "") None;
      mk_host (Some "dev") (Some "A") (Some "1.1.1.2") (Some "") None;
      mk_host None None None (Some "") None ]
    "dev" "9.9.9.9"
  = [ mk_host (Some "dev") (Some "TXT") (Some "v=1") (Some "") None;
      mk_host None None None (Some "") None;
      mk_host (Some "dev") (Some "A") (Some "9.9.9.9") (Some "")
        (Some (DEFAULT_TTL config)) ].
Proof. reflexivity. Qed.

End Reconciliation.

(** ** The transport client *)

Lemma attempts_logged_app (w : world) (l : level) (m : message) :
  attempts_logged (mk_world (sent w) (log w ++ [(l, m)]))
  = attempts_logged w
    ++ match m with ApiCallAttempt attempt _ _ => [attempt] | _ => [] end.
Proof.
  unfold attempts_logged; simpl. rewrite flat_map_app; simpl.
  now rewrite app_nil_r.
Qed.

(** One turn of the loop: exactly one request is sent and one attempt
    logged; then the response is returned, or the next turn starts, or the
    last attempt raises. *)
Ltac loop_step :=
  intros Hc; simpl; unfold bind, subscript; rewrite Hc;
  unfold ret, raise, logger, requests_get; simpl;
  match goal with
  | |- context [accepted ?o] =>
      destruct o as [e|response]; simpl;
      [|destruct (status_code response =? 200)%Z; simpl]
  end;
  try (destruct (_ <? _)%nat);
  eexists; (split; [|split]); try reflexivity;
  unfold attempts_logged; simpl; rewrite ?flat_map_app; simpl;
  rewrite ?app_nil_r; reflexivity.

Lemma add_attempts_loop_step net url params max_retries command
  attempt rest w :
  dict_get params "Command" = Some command ->
  exists w1,
    sent w1 = sent w ++ [mk_request url params]
    /\ attempts_logged w1 = attempts_logged w ++ [attempt]
    /\ AddSubdomain.attempts_loop net url params max_retries
         (attempt :: rest) w
       = match accepted (net (length (sent w)) (mk_request url params)) with
         | Some response => (Return response, w1)
         | None =>
             if (attempt <? max_retries)%nat then
               AddSubdomain.attempts_loop net url params max_retries rest w1
             else (Raise (FailedAfterRetries max_retries), w1)
         end.
Proof. loop_step. Qed.

Lemma check_attempts_loop_step net url params max_retries command
  attempt rest w :
  dict_get params "Command" = Some command ->
  exists w1,
    sent w1 = sent w ++ [mk_request url params]
    /\ attempts_logged w1 = attempts_logged w ++ [attempt]
    /\ CheckOldRecords.attempts_loop net url params max_retries
         (attempt :: rest) w
       = match accepted (net (length (sent w)) (mk_request url params)) with
         | Some response => (Return response, w1)
         | None =>
             if (attempt <? max_retries)%nat then
               CheckOldRecords.attempts_loop net url params max_retries
                 rest w1
             else (Raise (FailedAfterRetries max_retries), w1)
         end.
Proof. loop_step. Qed.

(** What the loop amounts to, for any loop that takes its turns as above:
    the retry policy on the replies of the network. *)
Section RetryLoop.
Variable net : network.
Variable url : string.
Variable params : dict pystr.
Variable max_retries : nat.
Variable loop : list nat -> M Response.

Hypothesis loop_nil : forall w, loop [] w = (Raise UnexpectedExit, w).
Hypothesis loop_cons :
  forall attempt rest w,
  exists w1,
    sent w1 = sent w ++ [mk_request url params]
    /\ attempts_logged w1 = attempts_logged w ++ [attempt]
    /\ loop (attempt :: rest) w
       = match accepted (net (length (sent w)) (mk_request url params)) with
         | Some response => (Return response, w1)
         | None =>
             if (attempt <? max_retries)%nat then loop rest w1
             else (Raise (FailedAfterRetries max_retries), w1)
         end.

Lemma loop_retry_policy n :
  forall a w,
    a + n = S max_retries ->
    exists w',
      loop (seq a n) w
      = (match snd (retry_policy (fun j => net j (mk_request url params))
                      (length (sent w)) n)
         with
         | Some response => Return response
         | None =>
             Raise (match n with
                    | 0 => UnexpectedExit
                    | S _ => FailedAfterRetries max_retries
                    end)
         end, w')
      /\ sent w'
         = sent w
           ++ repeat (mk_request url params)
                (fst (retry_policy (fun j => net j (mk_request url params))
                        (length (sent w)) n))
      /\ attempts_logged w'
         = attempts_logged w
           ++ seq a
                (fst (retry_policy (fun j => net j (mk_request url params))
                        (length (sent w)) n)).
Proof.
  induction n as [|n IH]; intros a w Han.
  - exists w. simpl. rewrite loop_nil, !app_nil_r. auto.
  - destruct (loop_cons a (seq (S a) n) w) as (w1 & Hs & Hl & E).
    simpl seq. rewrite E. simpl retry_policy.
    destruct (accepted (net (length (sent w)) (mk_request url params)))
      as [response|].
    + exists w1. simpl. auto.
    + destruct (IH (S a) w1) as (w' & E' & Hs' & Hl'); [lia|].
      assert (Hlen : length (sent w1) = S (length (sent w))).
      { rewrite Hs, length_app. simpl. lia. }
      rewrite Hlen in E', Hs', Hl'.
      destruct (retry_policy (fun j => net j (mk_request url params))
                  (S (length (sent w))) n) as [k r] eqn:Ep.
      simpl in *.
      destruct (Nat.ltb_spec a max_retries) as [Hlt|Hge].
      * exists w'. rewrite E'. split; [|split].
        -- destruct r; [reflexivity|]. destruct n; [lia|reflexivity].
        -- rewrite Hs', Hs, <- app_assoc. reflexivity.
        -- rewrite Hl', Hl, <- app_assoc. reflexivity.
      * assert (n = 0) by lia. subst n. simpl in Ep.
        injection Ep as <- <-.
        exists w1. simpl. auto.
Qed.

End RetryLoop.

Lemma add_call_retry_policy net url params max_retries command w :
  dict_get params "Command" = Some command ->
  exists w',
    AddSubdomain.call_namecheap_api_with_retries net url params
      max_retries w
    = (match snd (retry_policy (fun j => net j (mk_request url params))
                    (length (sent w)) max_retries) with
       | Some response => Return response
       | None =>
           Raise (match max_retries with
                  | 0 => UnexpectedExit
                  | S _ => FailedAfterRetries max_retries
                  end)
       end, w')
    /\ sent w'
       = sent w
         ++ repeat (mk_request url params)
              (fst (retry_policy (fun j => net j (mk_request url params))
                      (length (sent w)) max_retries))
    /\ attempts_logged w'
       = attempts_logged w
         ++ seq 1
              (fst (retry_policy (fun j => net j (mk_request url params))
                      (length (sent w)) max_retries)).
Proof.
  intros Hc. unfold AddSubdomain.call_namecheap_api_with_retries.
  apply loop_retry_policy; [reflexivity| |reflexivity].
  intros attempt rest w0. now apply add_attempts_loop_step with command.
Qed.

Lemma check_call_retry_policy net url params max_retries command w :
  dict_get params "Command" = Some command ->
  exists w',
    CheckOldRecords.call_namecheap_api_with_retries net url params
      max_retries w
    = (match snd (retry_policy (fun j => net j (mk_request url params))
                    (length (sent w)) max_retries) with
       | Some response => Return response
       | None =>
           Raise (match max_retries with
                  | 0 => UnexpectedExit
                  | S _ => FailedAfterRetries max_retries
                  end)
       end, w')
    /\ sent w'
       = sent w
         ++ repeat (mk_request url params)
              (fst (retry_policy (fun j => net j (mk_request url params))
                      (length (sent w)) max_retries))
    /\ attempts_logged w'
       = attempts_logged w
         ++ seq 1
              (fst (retry_policy (fun j => net j (mk_request url params))
                      (length (sent w)) max_retries)).
Proof.
  intros Hc. unfold CheckOldRecords.call_namecheap_api_with_retries.
  apply loop_retry_policy; [reflexivity| |reflexivity].
  intros attempt rest w0. now apply check_attempts_loop_step with command.
Qed.

Lemma accepted_None_iff (o : outcome) :
  accepted o = None
  <-> (exists e, o = RequestException e)
      \/ (exists response,
            o = Got response /\ status_code response <> 200%Z).
Proof.
  destruct o as [e|response]; simpl.
  - split; [eauto|reflexivity].
  - destruct (Z.eqb_spec (status_code response) 200) as [E|E].
    + split; [discriminate|].
      intros [[e H]|(r & H & Hr)]; [discriminate|].
      injection H as <-. contradiction.
    + split; [|reflexivity]. intros _. right. eauto.
Qed.

Lemma accepted_Some_iff (o : outcome) (response : Response) :
  accepted o = Some response
  <-> o = Got response /\ status_code response = 200%Z.
Proof.
  destruct o as [e|r]; simpl.
  - split; [discriminate|]. intros [H _]. discriminate.
  - destruct (Z.eqb_spec (status_code r) 200) as [E|E].
    + split.
      * intros H. injection H as <-. auto.
      * intros [H _]. injection H as <-. reflexivity.
    + split; [discriminate|]. intros [H Hr]. injection H as <-.
      contradiction.
Qed.

(** Every failure the specification names is one for the loop: an
    exception, and a status outside the 2xx class. *)
Lemma non_2xx_not_accepted (response : Response) :
  is_2xx (status_code response) = false -> accepted (Got response) = None.
Proof.
  unfold is_2xx; simpl. intros H.
  destruct (Z.eqb_spec (status_code response) 200) as [E|E];
    [|reflexivity].
  rewrite E in H. discriminate.
Qed.

(** A response with status 200 is returned at once: one request, no
    retry. *)
Lemma status_200_returned_at_once net url params command max_retries w
  response :
  dict_get params "Command" = Some command ->
  0 < max_retries ->
  net (length (sent w)) (mk_request url params) = Got response ->
  status_code response = 200%Z ->
  exists w',
    AddSubdomain.call_namecheap_api_with_retries net url params
      max_retries w = (Return response, w')
    /\ sent w' = sent w ++ [mk_request url params].
Proof.
  intros Hc Hpos Hr H200.
  destruct (add_call_retry_policy net url params max_retries command w Hc)
    as (w' & E & Hs & _).
  destruct max_retries as [|n]; [lia|]. simpl retry_policy in E, Hs.
  assert (Ha : accepted (net (length (sent w)) (mk_request url params))
               = Some response) by (apply accepted_Some_iff; auto).
  rewrite Ha in E, Hs. exists w'. auto.
Qed.

(** A failed attempt that is not the last one is followed by another
    request. *)
Lemma failure_is_retried net url params command max_retries w :
  dict_get params "Command" = Some command ->
  1 < max_retries ->
  accepted (net (length (sent w)) (mk_request url params)) = None ->
  exists w' n,
    snd (AddSubdomain.call_namecheap_api_with_retries net url params
           max_retries w) = w'
    /\ sent w' = sent w ++ repeat (mk_request url params) (S (S n)).
Proof.
  intros Hc Hpos Ha.
  destruct (add_call_retry_policy net url params max_retries command w Hc)
    as (w' & E & Hs & _).
  destruct max_retries as [|[|n]]; [lia|lia|].
  simpl retry_policy in Hs. rewrite Ha in Hs.
  destruct (accepted (net (S (length (sent w))) (mk_request url params))).
  - exists w', 0. rewrite E. auto.
  - destruct (retry_policy _ (S (S (length (sent w)))) n) as [k r].
    exists w', k. rewrite E. auto.
Qed.

(** C3, as amended. In both scripts the transport client follows the retry
    policy on the replies of the network: an attempt is followed by another
    one exactly when it raised a network exception or its status is not
    200, as long as attempts remain; a response with status 200 is returned
    at once; the attempts are numbered 1, 2, ... by one counter whatever
    made the earlier ones fail. *)
Theorem retry_unless_status_200 :
  forall (net : network) (url : string) (params : dict pystr)
         (command : pystr) (max_retries : nat) (w : world),
    dict_get params "Command" = Some command ->
    0 < max_retries ->
    let req := mk_request url params in
    let policy :=
      retry_policy (fun j => net j req) (length (sent w)) max_retries in
    let outcome :=
      match snd policy with
      | Some response => Return response
      | None => Raise (FailedAfterRetries max_retries)
      end in
    (exists w',
        AddSubdomain.call_namecheap_api_with_retries net url params
          max_retries w = (outcome, w')
        /\ sent w' = sent w ++ repeat req (fst policy)
        /\ attempts_logged w' = attempts_logged w ++ seq 1 (fst policy))
    /\ (exists w',
        CheckOldRecords.call_namecheap_api_with_retries net url params
          max_retries w = (outcome, w')
        /\ sent w' = sent w ++ repeat req (fst policy)
        /\ attempts_logged w' = attempts_logged w ++ seq 1 (fst policy))
    /\ (forall o,
          accepted o = None
          <-> (exists e, o = RequestException e)
              \/ (exists response,
                    o = Got response /\ status_code response <> 200%Z)).
Proof.
  intros net url params command max_retries w Hc Hpos req policy outcome.
  assert (Ho : outcome
               = match snd policy with
                 | Some response => Return response
                 | None =>
                     Raise (match max_retries with
                            | 0 => UnexpectedExit
                            | S _ => FailedAfterRetries max_retries
                            end)
                 end).
  { unfold outcome. destruct (snd policy); [reflexivity|].
    destruct max_retries; [lia|reflexivity]. }
  rewrite Ho. split; [|split].
  - exact (add_call_retry_policy net url params max_retries command w Hc).
  - exact (check_call_retry_policy net url params max_retries command w Hc).
  - exact accepted_None_iff.
Qed.

(** At the network that fails once by an exception and once by status 503,
    the two failures use up attempts 1 and 2 of the same counter and the
    third attempt returns the response. *)
Lemma retry_unless_status_200_witness :
  fst (AddSubdomain.call_namecheap_api_with_retries Sample.net_third_time
         Sample.api_url Sample.some_params 3 initial_world)
  = Return (mk_response 200 Sample.getHosts_body)
  /\ attempts_logged
       (snd (AddSubdomain.call_namecheap_api_with_retries
               Sample.net_third_time Sample.api_url Sample.some_params 3
               initial_world))
     = [1; 2; 3].
Proof.
  destruct (retry_unless_status_200 Sample.net_third_time Sample.api_url
              Sample.some_params
              (Some "namecheap.domains.dns.getHosts") 3 initial_world)
    as [(w' & E & _ & Hl) _].
  - reflexivity.
  - lia.
  - rewrite E. split; [reflexivity|exact Hl].
Defined.

(** C3, counterexample. Status 204 is in the 2xx class; a network that
    answers every request with it is asked three times and the call
    raises, in both scripts. *)
Lemma status_204_is_retried :
  is_2xx 204 = true
  /\ Sample.net_204 0 (mk_request Sample.api_url Sample.some_params)
     = Got (mk_response 204 "")
  /\ fst (AddSubdomain.call_namecheap_api_with_retries Sample.net_204
            Sample.api_url Sample.some_params 3 initial_world)
     = Raise (FailedAfterRetries 3)
  /\ length (sent (snd (AddSubdomain.call_namecheap_api_with_retries
                          Sample.net_204 Sample.api_url Sample.some_params
                          3 initial_world))) = 3
  /\ fst (CheckOldRecords.call_namecheap_api_with_retries Sample.net_204
            Sample.api_url Sample.some_params 3 initial_world)
     = Raise (FailedAfterRetries 3)
  /\ length (sent (snd (CheckOldRecords.call_namecheap_api_with_retries
                          Sample.net_204 Sample.api_url Sample.some_params
                          3 initial_world))) = 3.
Proof. repeat split; reflexivity. Qed.



(** ** Fetching the records *)

Lemma add_get_dns_records_spec net fromstring config sld tld w :
  let req := getHosts_request config sld tld in
  let policy := retry_policy (fun j => net j req) (length (sent w)) 3 in
  exists w',
    AddSubdomain.get_dns_records net fromstring config sld tld w
    = (add_fetch_result fromstring config (snd policy), w')
    /\ sent w' = sent w ++ repeat req (fst policy).
Proof.
  intros req policy.
  destruct (add_call_retry_policy net (AddSubdomain.API_URL config)
              (params req) 3 (Some "namecheap.domains.dns.getHosts") w
              eq_refl) as (w' & E & Hs & _).
  change (mk_request (AddSubdomain.API_URL config) (params req))
    with req in E, Hs.
  fold policy in E, Hs.
  unfold AddSubdomain.get_dns_records, bind.
  change (AddSubdomain.call_namecheap_api_with_retries net
            (AddSubdomain.API_URL config) _ 3 w)
    with (AddSubdomain.call_namecheap_api_with_retries net
            (AddSubdomain.API_URL config) (params req) 3 w).
  rewrite E. unfold add_fetch_result.
  destruct (snd policy) as [response|]; [|eauto].
  unfold ET_fromstring.
  destruct (fromstring (response_text response)) as [root|];
    unfold raise, ret; [|eauto].
  destruct (findall_descendant (strip_namespaces root) "Error"); eauto.
Qed.

Lemma check_get_dns_records_spec net fromstring config sld tld w :
  let req := check_getHosts_request config sld tld in
  let policy := retry_policy (fun j => net j req) (length (sent w)) 3 in
  exists w',
    CheckOldRecords.get_dns_records net fromstring config sld tld w
    = (check_fetch_result fromstring (snd policy), w')
    /\ sent w' = sent w ++ repeat req (fst policy).
Proof.
  intros req policy.
  destruct (check_call_retry_policy net (CheckOldRecords.API_URL config)
              (params req) 3 (Some "namecheap.domains.dns.getHosts") w
              eq_refl) as (w' & E & Hs & _).
  change (mk_request (CheckOldRecords.API_URL config) (params req))
    with req in E, Hs.
  fold policy in E, Hs.
  unfold CheckOldRecords.get_dns_records, bind.
  change (CheckOldRecords.call_namecheap_api_with_retries net
            (CheckOldRecords.API_URL config) _ 3 w)
    with (CheckOldRecords.call_namecheap_api_with_retries net
            (CheckOldRecords.API_URL config) (params req) 3 w).
  rewrite E. unfold check_fetch_result.
  destruct (snd policy) as [response|]; [|eauto].
  unfold logger, ET_fromstring; simpl.
  destruct (fromstring (response_text response)) as [root|];
    unfold raise, ret; [|eauto].
  destruct (findall_descendant (strip_namespaces root) "Error")
    as [|e errors]; simpl; [eauto|].
  destruct (truthy (text e)); eauto.
Qed.

(** The fetch of [add_subdomain.py] raises in the three ways of
    [fetch_fails], and in no other. *)
Lemma fetch_fails_iff_raises net fromstring config sld tld w e :
  fetch_fails net fromstring config sld tld w e
  <-> fst (AddSubdomain.get_dns_records net fromstring config sld tld w)
      = Raise e.
Proof.
  destruct (add_get_dns_records_spec net fromstring config sld tld w)
    as (w' & E & _).
  rewrite E. cbn [fst]. unfold add_fetch_result. split.
  - intros [H|response H Hp|response root e0 errors H Hp He]; rewrite H.
    + reflexivity.
    + now rewrite Hp.
    + now rewrite Hp, He.
  - destruct (snd (retry_policy _ _ 3)) as [response|] eqn:H.
    + destruct (fromstring (response_text response)) as [root|] eqn:Hp.
      * destruct (findall_descendant (strip_namespaces root) "Error")
          as [|e0 errors] eqn:He; [discriminate|].
        intros X. injection X as <-.
        now apply api_errors with response root errors.
      * intros X. injection X as <-. now apply unparsable_xml.
    + intros X. injection X as <-. now apply transport_failure.
Qed.

Lemma getHosts_request_not_push config sld tld :
  is_push (getHosts_request config sld tld) = false.
Proof. reflexivity. Qed.

Lemma filter_repeat_false {A} (p : A -> bool) (x : A) (n : nat) :
  p x = false -> filter p (repeat x n) = [].
Proof.
  intros H. induction n as [|n IH]; simpl; [reflexivity|].
  now rewrite H.
Qed.

Lemma add_get_dns_records_no_push net fromstring config sld tld w :
  pushes (snd (AddSubdomain.get_dns_records net fromstring config sld tld w))
  = pushes w.
Proof.
  destruct (add_get_dns_records_spec net fromstring config sld tld w)
    as (w' & E & Hs).
  rewrite E. cbn [snd]. unfold pushes. rewrite Hs, filter_app.
  rewrite filter_repeat_false by apply getHosts_request_not_push.
  apply app_nil_r.
Qed.

(** C7. When the fetch phase of [add_subdomain.py] fails, by a transport
    failure after the retries, by a body that is not XML or by an [Error]
    element in the payload, [get_dns_records] raises, [main] ends with
    [sys.exit(1)], and no [setHosts] request has been sent by then. *)
Theorem no_push_after_failed_fetch :
  forall (net : network) (fromstring : string -> option Element)
         (getenv : string -> pystr) (extract : string -> ExtractResult)
         (args : AddSubdomain.Namespace) (confirm : string)
         (config : AddSubdomain.config) (subdomain sld tld : string)
         (w : world) (e : exn),
    AddSubdomain.load_config getenv = Return config ->
    AddSubdomain.parse_domain_parts extract (AddSubdomain.domain args)
    = Return (subdomain, sld, tld) ->
    confirm = "y" \/ confirm = "yes" ->
    fetch_fails net fromstring config sld tld w e ->
    fst (AddSubdomain.get_dns_records net fromstring config sld tld w)
    = Raise e
    /\ fst (AddSubdomain.main net fromstring getenv extract args confirm w)
       = Return (SysExit 1)
    /\ pushes (snd (AddSubdomain.main net fromstring getenv extract args
                      confirm w))
       = pushes w.
Proof.
  intros net fromstring getenv extract args confirm config subdomain sld tld
    w e Hcfg Hdom Hyes Hfail.
  apply fetch_fails_iff_raises in Hfail.
  split; [exact Hfail|].
  pose proof (add_get_dns_records_no_push net fromstring config sld tld w)
    as Hp.
  destruct (AddSubdomain.get_dns_records net fromstring config sld tld w)
    as [res w'] eqn:E.
  simpl in Hfail, Hp. subst res.
  assert (Hc : negb ((confirm =? "y") || (confirm =? "yes")) = false).
  { destruct Hyes as [-> | ->]; reflexivity. }
  assert (Hmain :
            exists wf,
              AddSubdomain.main net fromstring getenv extract args confirm w
              = (Return (SysExit 1), wf)
              /\ sent wf = sent w').
  { unfold AddSubdomain.main. rewrite Hcfg, Hdom, Hc.
    unfold bind, try_except. rewrite E. simpl.
    eexists. split; reflexivity. }
  destruct Hmain as (wf & Hm & Hs). rewrite Hm. simpl.
  split; [reflexivity|]. unfold pushes in *. now rewrite Hs.
Qed.

(** The network is down: the fetch gives up after three requests, none of
    them a push, and [main] exits with status 1. *)
Lemma no_push_after_failed_fetch_witness :
  fst (AddSubdomain.main Sample.net_down Sample.fromstring Sample.getenv
         Sample.extract Sample.args "y" initial_world)
  = Return (SysExit 1)
  /\ pushes (snd (AddSubdomain.main Sample.net_down Sample.fromstring
                    Sample.getenv Sample.extract Sample.args "y"
                    initial_world))
     = [].
Proof.
  destruct (no_push_after_failed_fetch Sample.net_down Sample.fromstring
              Sample.getenv Sample.extract Sample.args "y" Sample.config
              "dev" "example" "com" initial_world (FailedAfterRetries 3))
    as (_ & Hexit & Hpush).
  - reflexivity.
  - reflexivity.
  - left; reflexivity.
  - apply transport_failure. reflexivity.
  - split; [exact Hexit|exact Hpush].
Defined.

(** C10. Once the transport has returned a response and its body is XML:
    [check_old_records.py] raises the API error exactly when the first
    [Error] element of the tree has a non-empty text, and
    [add_subdomain.py] exactly when the tree has an [Error] element at all.
    So a first [Error] element with no text, or an empty one, fails the
    write path and lets the read path return the hosts. *)
Theorem error_text_decides_on_read_path :
  forall (net : network) (fromstring : string -> option Element)
         (config : AddSubdomain.config)
         (check_config : CheckOldRecords.config) (sld tld : string)
         (w : world) (response : Response) (root : Element),
    snd (retry_policy (fun j => net j (getHosts_request config sld tld))
           (length (sent w)) 3) = Some response ->
    snd (retry_policy
           (fun j => net j (check_getHosts_request check_config sld tld))
           (length (sent w)) 3) = Some response ->
    fromstring (response_text response) = Some root ->
    let errors := findall_descendant (strip_namespaces root) "Error" in
    let add_result :=
      fst (AddSubdomain.get_dns_records net fromstring config sld tld w) in
    let check_result :=
      fst (CheckOldRecords.get_dns_records net fromstring check_config
             sld tld w) in
    (forall x,
        check_result = Raise x
        <-> exists e rest,
              errors = e :: rest /\ truthy (text e) = true
              /\ x = ApiError (text e))
    /\ (forall x,
          add_result = Raise x
          <-> exists e rest, errors = e :: rest /\ x = ApiError (text e))
    /\ (forall e rest,
          errors = e :: rest ->
          truthy (text e) = false ->
          add_result = Raise (ApiError (text e))
          /\ check_result
             = Return (CheckOldRecords.gather_hosts
                         (strip_namespaces root))).
Proof.
  intros net fromstring config check_config sld tld w response root
    Ha Hc Hp errors add_result check_result.
  destruct (add_get_dns_records_spec net fromstring config sld tld w)
    as (wa & Ea & _).
  destruct (check_get_dns_records_spec net fromstring check_config sld tld w)
    as (wc & Ec & _).
  unfold add_result, check_result. rewrite Ea, Ec. cbn [fst].
  rewrite Ha, Hc. unfold add_fetch_result, check_fetch_result.
  rewrite Hp. fold errors.
  destruct errors as [|e rest].
  - split; [|split].
    + intros x. split; [discriminate|]. intros (e & r & H & _).
      discriminate.
    + intros x. split; [discriminate|]. intros (e & r & H & _).
      discriminate.
    + discriminate.
  - split; [|split].
    + intros x. destruct (truthy (text e)) eqn:Ht.
      * split.
        -- intros H. injection H as <-. exists e, rest. auto.
        -- intros (e' & r' & H & _ & ->). injection H as <- _.
           reflexivity.
      * split; [discriminate|].
        intros (e' & r' & H & Ht' & _). injection H as <- _.
        congruence.
    + intros x. split.
      * intros H. injection H as <-. exists e, rest. auto.
      * intros (e' & r' & H & ->). injection H as <- _. reflexivity.
    + intros e' rest' H Ht. injection H as <- <-. rewrite Ht. auto.
Qed.

(** The sample response whose only [Error] element is empty: the write
    path raises, the read path returns the empty host list. *)
Lemma error_text_decides_on_read_path_witness :
  fst (AddSubdomain.get_dns_records
         (Sample.net_const Sample.empty_error_body) Sample.fromstring
         Sample.config "example" "com" initial_world)
  = Raise (ApiError None)
  /\ fst (CheckOldRecords.get_dns_records
            (Sample.net_const Sample.empty_error_body) Sample.fromstring
            Sample.check_config "example" "com" initial_world)
     = Return [].
Proof.
  destruct (error_text_decides_on_read_path
              (Sample.net_const Sample.empty_error_body) Sample.fromstring
              Sample.config Sample.check_config "example" "com"
              initial_world (mk_response 200 Sample.empty_error_body)
              Sample.empty_error_tree)
    as (_ & _ & H).
  - reflexivity.
  - reflexivity.
  - reflexivity.
  - exact (H (Elem "Error" [("Number", "0")] None []) [] eq_refl eq_refl).
Defined.

(** ** The host list *)

Example strip_tag_namespace :
  strip_tag "{http://api.namecheap.com/xml.response}host" = "host"
  /\ strip_tag "host" = "host".
Proof. split; reflexivity. Qed.

(** In the sample response the [Errors] element is no [Error] element, and
    the two hosts are found in document order. *)
Example sample_getHosts_queries :
  findall_descendant (strip_namespaces Sample.getHosts_tree) "Error" = []
  /\ findall_descendant_child (strip_namespaces Sample.getHosts_tree)
       "DomainDNSGetHostsResult" "host"
     = [strip_namespaces Sample.host_DEV; strip_namespaces Sample.host_www]
  /\ findall_descendant_child Sample.getHosts_tree
       "DomainDNSGetHostsResult" "host" = [].
Proof. repeat split; reflexivity. Qed.

Example sample_fetch :
  fst (AddSubdomain.get_dns_records (Sample.net_const Sample.getHosts_body)
         Sample.fromstring Sample.config "example" "com" initial_world)
  = Return
      [ mk_host (Some "DEV") (Some "A") (Some "1.1.1.1") (Some "10")
          (Some "300");
        mk_host (Some "www") (Some "CNAME") (Some "example.com.") (Some "")
          (Some "1800") ].
Proof. reflexivity. Qed.

(** C8. For a [host] element without a [TTL] attribute, at whatever place
    in the response: the record [add_subdomain.py] builds from it has the
    configured default TTL, the record [check_old_records.py] builds has
    [None], and the two records agree on the four other fields. *)
Theorem default_ttl_on_write_path_only :
  forall (config : AddSubdomain.config) (root : Element) (i : nat)
         (host : Element),
    nth_error
      (findall_descendant_child root "DomainDNSGetHostsResult" "host") i
    = Some host ->
    get host "TTL" = None ->
    exists written read,
      nth_error (AddSubdomain.gather_hosts config root) i = Some written
      /\ nth_error (CheckOldRecords.gather_hosts root) i = Some read
      /\ TTL written = Some (AddSubdomain.DEFAULT_TTL config)
      /\ TTL read = None
      /\ HostName written = HostName read
      /\ RecordType written = RecordType read
      /\ Address written = Address read
      /\ MXPref written = MXPref read.
Proof.
  intros config root i host Hi Httl.
  exists (AddSubdomain.host_dict config host), (CheckOldRecords.host_dict host).
  unfold AddSubdomain.gather_hosts, CheckOldRecords.gather_hosts.
  rewrite !for_append_map.
  split; [now apply map_nth_error|].
  split; [now apply map_nth_error|].
  unfold AddSubdomain.host_dict, CheckOldRecords.host_dict; simpl.
  unfold get_default, get in *. rewrite Httl.
  repeat split; reflexivity.
Qed.

(** The second host of the sample response has no [TTL]. *)
Lemma default_ttl_on_write_path_only_witness :
  exists written read,
    nth_error
      (AddSubdomain.gather_hosts Sample.config
         (strip_namespaces Sample.getHosts_tree)) 1 = Some written
    /\ nth_error
         (CheckOldRecords.gather_hosts
            (strip_namespaces Sample.getHosts_tree)) 1 = Some read
    /\ TTL written = Some "1800"
    /\ TTL read = None
    /\ HostName written = HostName read
    /\ RecordType written = RecordType read
    /\ Address written = Address read
    /\ MXPref written = MXPref read.
Proof.
  exact (default_ttl_on_write_path_only Sample.config
           (strip_namespaces Sample.getHosts_tree) 1
           (strip_namespaces Sample.host_www) eq_refl eq_refl).
Defined.

(** A [TTL] attribute that is present is read alike on both paths. *)
Lemma ttl_attribute_read_alike config host ttl :
  get host "TTL" = Some ttl ->
  AddSubdomain.host_dict config host = CheckOldRecords.host_dict host.
Proof.
  intros H. unfold AddSubdomain.host_dict, CheckOldRecords.host_dict.
  unfold get_default, get in *. rewrite H. reflexivity.
Qed.

(** ** Pushing the records *)

(** The push is taken as successful exactly when the result element is
    found, has at least one child, and carries [IsSuccess="true"]. *)
Lemma update_failed_false_iff (result : option Element) :
  AddSubdomain.update_failed result = false
  <-> exists r,
        result = Some r /\ children r <> []
        /\ get r "IsSuccess" = Some "true".
Proof.
  unfold AddSubdomain.update_failed, element_bool. split.
  - destruct result as [r|]; [|discriminate].
    destruct (children r) eqn:Ec; [discriminate|]. simpl.
    destruct (get r "IsSuccess") as [v|] eqn:Eg; simpl; [|discriminate].
    destruct (String.eqb_spec v "true") as [->|]; [|discriminate].
    intros _. exists r. rewrite Ec. repeat split; congruence.
  - intros (r & -> & Hc & Hg). rewrite Hg.
    destruct (children r); [contradiction|]. reflexivity.
Qed.

(** C2, the failing input. The registrar answers the push with status 200
    and its documented success response: the result element is there and
    its [IsSuccess] is ["true"], but it has no children, so it is false as a
    truth value: [set_dns_records] raises and [main] exits with status 1
    after a push the registrar confirmed. *)
Theorem childless_success_result_is_rejected :
  let root := strip_namespaces Sample.setHosts_ok_tree in
  (exists r,
      find_descendant root "DomainDNSSetHostsResult" = Some r
      /\ get r "IsSuccess" = Some "true"
      /\ children r = [])
  /\ fst (AddSubdomain.set_dns_records
            (Sample.net_const Sample.setHosts_ok_body) Sample.fromstring
            Sample.config "example" "com"
            [AddSubdomain.new_record Sample.config "dev" "9.9.9.9"]
            initial_world)
     = Raise (UpdateFailed Sample.setHosts_ok_body)
  /\ fst (AddSubdomain.main (Sample.net_zone Sample.setHosts_ok_body)
            Sample.fromstring Sample.getenv Sample.extract Sample.args "y"
            initial_world)
     = Return (SysExit 1)
  /\ length (pushes (snd (AddSubdomain.main
                            (Sample.net_zone Sample.setHosts_ok_body)
                            Sample.fromstring Sample.getenv Sample.extract
                            Sample.args "y" initial_world)))
     = 1.
Proof.
  split; [|split; [|split]].
  - eexists. repeat split; reflexivity.
  - vm_compute. reflexivity.
  - vm_compute. reflexivity.
  - vm_compute. reflexivity.
Qed.

(** The same response with a child in the result element is accepted. *)
Lemma success_result_with_child_is_accepted :
  fst (AddSubdomain.set_dns_records
         (Sample.net_const Sample.setHosts_warnings_body) Sample.fromstring
         Sample.config "example" "com"
         [AddSubdomain.new_record Sample.config "dev" "9.9.9.9"]
         initial_world)
  = Return tt
  /\ fst (AddSubdomain.main (Sample.net_zone Sample.setHosts_warnings_body)
            Sample.fromstring Sample.getenv Sample.extract Sample.args "y"
            initial_world)
     = Return Finished.
Proof. split; vm_compute; reflexivity. Qed.

(** ** Letter case *)

Lemma filter_length_pos {A} (p : A -> bool) (x : A) (l : list A) :
  In x l -> p x = true -> 1 <= length (filter p l).
Proof.
  intros Hin Hp. induction l as [|y l IH]; [contradiction|]. simpl.
  destruct Hin as [->|Hin].
  - rewrite Hp. simpl. lia.
  - destruct (p y); simpl; auto with arith.
Qed.

(** C9. The comprehension compares host names by equality of strings. An A
    record whose host name differs from the desired one only in letter
    case is kept as it is, next to the new record: the result holds at
    least two A records for the one DNS name. *)
Theorem case_variant_is_kept :
  forall (config : AddSubdomain.config)
         (existing_records : list host_record)
         (subdomain ip_address name : string) (r : host_record),
    In r existing_records ->
    HostName r = Some name ->
    RecordType r = Some "A" ->
    differ_only_in_case name subdomain ->
    let out :=
      AddSubdomain.updated_records config existing_records subdomain
        ip_address in
    In r out
    /\ In (AddSubdomain.new_record config subdomain ip_address) out
    /\ r <> AddSubdomain.new_record config subdomain ip_address
    /\ 2 <= length (filter (A_record_of_name subdomain) out).
Proof.
  intros config l sub ip name r Hin Hn Ht [Hne Hlow] out.
  assert (Hkeep : AddSubdomain.same_A_record sub r = false).
  { unfold AddSubdomain.same_A_record. rewrite Hn. simpl.
    apply String.eqb_neq in Hne. now rewrite Hne. }
  assert (Hk : In r (kept sub l)).
  { unfold kept. apply filter_In. split; [exact Hin|]. now rewrite Hkeep. }
  assert (Hr : A_record_of_name sub r = true).
  { unfold A_record_of_name. rewrite Hn, Ht, Hlow. simpl.
    now rewrite String.eqb_refl. }
  unfold out. rewrite updated_records_eq.
  split; [|split; [|split]].
  - apply in_or_app. now left.
  - apply in_or_app. right. now left.
  - intros ->. simpl in Hn. congruence.
  - rewrite filter_app, length_app.
    pose proof (filter_length_pos _ _ _ Hk Hr) as H1.
    simpl. unfold A_record_of_name at 2. simpl.
    rewrite String.eqb_refl. simpl. lia.
Qed.

(** The fetched zone holds the A record of [DEV]; the record of [dev] is
    added next to it. *)
Lemma case_variant_is_kept_witness :
  let existing_records :=
    AddSubdomain.gather_hosts Sample.config
      (strip_namespaces Sample.getHosts_tree) in
  let out :=
    AddSubdomain.updated_records Sample.config existing_records "dev"
      "9.9.9.9" in
  In (mk_host (Some "DEV") (Some "A") (Some "1.1.1.1") (Some "10")
        (Some "300")) out
  /\ 2 <= length (filter (A_record_of_name "dev") out).
Proof.
  intros existing_records out.
  destruct (case_variant_is_kept Sample.config existing_records "dev"
              "9.9.9.9" "DEV"
              (mk_host (Some "DEV") (Some "A") (Some "1.1.1.1") (Some "10")
                 (Some "300")))
    as (H1 & _ & _ & H2).
  - left. reflexivity.
  - reflexivity.
  - reflexivity.
  - split; [discriminate|reflexivity].
  - split; [exact H1|exact H2].
Defined.

(* ================================================================== *)
(** * Further properties *)

(** ** Reconciliation *)

Lemma filter_all {A} (p : A -> bool) (l : list A) :
  filter p l = l <-> (forall x, In x l -> p x = true).
Proof.
  induction l as [|a l IH]; simpl.
  - split; [intros _ x []|reflexivity].
  - destruct (p a) eqn:Ea.
    + split.
      * intros H x [<-|Hx]; [exact Ea|].
        injection H as H. now apply IH.
      * intros H. f_equal. apply IH. auto.
    + split.
      * intros H. exfalso.
        assert (Hl : length (filter p l) <= length l)
          by apply filter_length_le.
        rewrite H in Hl. simpl in Hl. lia.
      * intros H. rewrite (H a) in Ea by now left. discriminate.
Qed.

(** X1. Step 5 is a pure append exactly when no fetched record is an A
    record of the desired host name: then every fetched record is pushed
    back, in order, followed by the new one. *)
Theorem updated_records_pure_append :
  forall (config : AddSubdomain.config)
         (existing_records : list host_record)
         (subdomain ip_address : string),
    AddSubdomain.updated_records config existing_records subdomain
      ip_address
    = existing_records
      ++ [AddSubdomain.new_record config subdomain ip_address]
    <-> (forall r,
            In r existing_records ->
            AddSubdomain.same_A_record subdomain r = false).
Proof.
  intros config l sub ip. rewrite updated_records_eq. unfold kept. split.
  - intros H r Hr. apply app_inv_tail in H.
    apply (proj1 (filter_all _ _)) with (x := r) in H; [|exact Hr].
    now apply negb_true_iff in H.
  - intros H. f_equal. apply filter_all. intros r Hr.
    now rewrite (H r Hr).
Qed.

(** X2. The one A record of the desired host name in the result of step 5
    is the new record: whatever addresses the name had, it now has the
    requested address and the default TTL. *)
Theorem updated_records_A_record_is_new :
  forall (config : AddSubdomain.config)
         (existing_records : list host_record)
         (subdomain ip_address : string),
    filter (AddSubdomain.same_A_record subdomain)
      (AddSubdomain.updated_records config existing_records subdomain
         ip_address)
    = [ mk_host (Some subdomain) (Some "A") (Some ip_address) (Some "")
          (Some (AddSubdomain.DEFAULT_TTL config)) ].
Proof.
  intros config l sub ip.
  rewrite updated_records_eq, filter_app, kept_no_same_A. simpl.
  now rewrite new_record_same_A.
Qed.

(** ** Domain parsing *)

(** X3. What the write script returns for a domain has three non-empty
    parts, the ones of the extraction; it raises for a domain whose
    extraction has no registered domain or no suffix, and for one without a
    subdomain. *)
Theorem add_parse_domain_parts_cases :
  forall (extract : string -> ExtractResult) (domain_str : string),
    let ext := extract domain_str in
    match AddSubdomain.parse_domain_parts extract domain_str with
    | Return (subdomain, sld, tld) =>
        subdomain = ext_subdomain ext /\ sld = ext_domain ext
        /\ tld = ext_suffix ext
        /\ subdomain <> "" /\ sld <> "" /\ tld <> ""
    | Raise e =>
        (e = CouldNotParse domain_str
         /\ (ext_domain ext = "" \/ ext_suffix ext = ""))
        \/ (e = MustProvideSubdomain
            /\ ext_subdomain ext = "" /\ ext_domain ext <> ""
            /\ ext_suffix ext <> "")
    end.
Proof.
  intros extract d ext. unfold AddSubdomain.parse_domain_parts, is_empty.
  fold ext.
  destruct (String.eqb_spec (ext_domain ext) "") as [Hd|Hd]; simpl.
  - left. auto.
  - destruct (String.eqb_spec (ext_suffix ext) "") as [Hs|Hs]; simpl.
    + left. auto.
    + destruct (String.eqb_spec (ext_subdomain ext) "") as [Hb|Hb].
      * right. auto.
      * repeat split; auto.
Qed.

(** X4. The read script accepts every domain the write script accepts,
    with the same parts; it also accepts a domain without subdomain, the
    one case the write script refuses on its own; what it refuses, with its
    could-not-parse error, the write script refuses too, with the
    could-not-parse error of its own wording. *)
Theorem parse_domain_parts_read_accepts_more :
  forall (extract : string -> ExtractResult) (domain_str : string),
    (forall parts,
        AddSubdomain.parse_domain_parts extract domain_str = Return parts ->
        CheckOldRecords.parse_domain_parts extract domain_str
        = Return parts)
    /\ (AddSubdomain.parse_domain_parts extract domain_str
        = Raise MustProvideSubdomain
        <-> exists sld tld,
              CheckOldRecords.parse_domain_parts extract domain_str
              = Return ("", sld, tld))
    /\ (forall e,
          CheckOldRecords.parse_domain_parts extract domain_str = Raise e ->
          e = CouldNotParseDomain domain_str
          /\ AddSubdomain.parse_domain_parts extract domain_str
             = Raise (CouldNotParse domain_str)).
Proof.
  intros extract d.
  unfold AddSubdomain.parse_domain_parts,
    CheckOldRecords.parse_domain_parts, is_empty.
  destruct (String.eqb_spec (ext_domain (extract d)) "") as [Hd|Hd];
    destruct (String.eqb_spec (ext_suffix (extract d)) "") as [Hs|Hs];
    simpl;
    try (split; [discriminate|split];
         [ split; [discriminate|intros (a & b & H); discriminate]
         | intros e H; injection H as <-; auto ]).
  destruct (String.eqb_spec (ext_subdomain (extract d)) "") as [Hb|Hb].
  - split; [discriminate|split; [|discriminate]].
    split; [|reflexivity]. intros _. rewrite Hb. eauto.
  - split; [auto|split; [|discriminate]].
    split; [discriminate|]. intros (a & b & H). injection H as H _ _.
    contradiction.
Qed.

(** ** Configuration *)

Lemma filter_nil_iff {A} (p : A -> bool) (l : list A) :
  filter p l = [] <-> (forall x, In x l -> p x = false).
Proof.
  induction l as [|a l IH]; simpl.
  - split; [intros _ x []|reflexivity].
  - destruct (p a) eqn:Ea.
    + split; [discriminate|]. intros H. rewrite (H a) in Ea by now left.
      discriminate.
    + rewrite IH. split.
      * intros H x [<-|Hx]; auto.
      * intros H x Hx. apply H. now right.
Qed.

Lemma truthy_true_iff (v : pystr) :
  truthy v = true <-> exists s, v = Some s /\ s <> "".
Proof.
  destruct v as [s|]; simpl.
  - destruct (String.eqb_spec s "") as [->|Hs]; simpl.
    + split; [discriminate|]. intros (s & H & Hs). injection H as <-.
      contradiction.
    + split; [eauto|reflexivity].
  - split; [discriminate|]. intros (s & H & _). discriminate.
Qed.

(** X5. The write script loads its configuration exactly when the five
    registrar settings are set and not empty and neither [DEFAULT_TTL] nor
    [DEFAULT_IP] ends up empty; the configuration then holds the values of
    the environment, with ["1800"] and ["1.2.3.4"] for a default that is
    unset. *)
Theorem add_load_config_returns_iff :
  forall (getenv : string -> pystr) (c : AddSubdomain.config),
    AddSubdomain.load_config getenv = Return c
    <-> (getenv "NAMECHEAP_API_URL" = Some (AddSubdomain.API_URL c)
         /\ getenv "NAMECHEAP_API_USER" = Some (AddSubdomain.API_USER c)
         /\ getenv "NAMECHEAP_API_KEY" = Some (AddSubdomain.API_KEY c)
         /\ getenv "NAMECHEAP_USERNAME" = Some (AddSubdomain.USERNAME c)
         /\ getenv "NAMECHEAP_CLIENT_IP" = Some (AddSubdomain.CLIENT_IP c)
         /\ AddSubdomain.getenv_default getenv "DEFAULT_TTL" "1800"
            = Some (AddSubdomain.DEFAULT_TTL c)
         /\ AddSubdomain.getenv_default getenv "DEFAULT_IP" "1.2.3.4"
            = Some (AddSubdomain.DEFAULT_IP c))
        /\ AddSubdomain.API_URL c <> "" /\ AddSubdomain.API_USER c <> ""
        /\ AddSubdomain.API_KEY c <> "" /\ AddSubdomain.USERNAME c <> ""
        /\ AddSubdomain.CLIENT_IP c <> ""
        /\ AddSubdomain.DEFAULT_TTL c <> ""
        /\ AddSubdomain.DEFAULT_IP c <> "".
Proof.
  intros getenv c. unfold AddSubdomain.load_config.
  rewrite comprehension_if_filter.
  set (v1 := getenv "NAMECHEAP_API_URL").
  set (v2 := getenv "NAMECHEAP_API_USER").
  set (v3 := getenv "NAMECHEAP_API_KEY").
  set (v4 := getenv "NAMECHEAP_USERNAME").
  set (v5 := getenv "NAMECHEAP_CLIENT_IP").
  set (v6 := AddSubdomain.getenv_default getenv "DEFAULT_TTL" "1800").
  set (v7 := AddSubdomain.getenv_default getenv "DEFAULT_IP" "1.2.3.4").
  clearbody v1 v2 v3 v4 v5 v6 v7.
  destruct c as [c1 c2 c3 c4 c5 c6 c7].
  cbn [AddSubdomain.API_URL AddSubdomain.API_USER AddSubdomain.API_KEY
       AddSubdomain.USERNAME AddSubdomain.CLIENT_IP
       AddSubdomain.DEFAULT_TTL AddSubdomain.DEFAULT_IP].
  split.
  - destruct (map fst _) eqn:Em; [|discriminate].
    apply map_eq_nil in Em.
    pose proof (proj1 (filter_nil_iff _ _) Em) as H.
    assert (T : forall k v,
               In (k, v)
                 [ ("API_URL", v1); ("API_USER", v2); ("API_KEY", v3);
                   ("USERNAME", v4); ("CLIENT_IP", v5);
                   ("DEFAULT_TTL", v6); ("DEFAULT_IP", v7) ] ->
               exists s, v = Some s /\ s <> "").
    { intros k v Hin. apply truthy_true_iff. apply H in Hin. simpl in Hin.
      now apply negb_false_iff in Hin. }
    destruct (T _ v1 ltac:(simpl; auto 10)) as (s1 & -> & N1).
    destruct (T _ v2 ltac:(simpl; auto 10)) as (s2 & -> & N2).
    destruct (T _ v3 ltac:(simpl; auto 10)) as (s3 & -> & N3).
    destruct (T _ v4 ltac:(simpl; auto 10)) as (s4 & -> & N4).
    destruct (T _ v5 ltac:(simpl; auto 10)) as (s5 & -> & N5).
    destruct (T _ v6 ltac:(simpl; auto 10)) as (s6 & -> & N6).
    destruct (T _ v7 ltac:(simpl; auto 10)) as (s7 & -> & N7).
    simpl. intros E. injection E as <- <- <- <- <- <- <-.
    repeat split; assumption.
  - intros ((-> & -> & -> & -> & -> & -> & ->)
            & N1 & N2 & N3 & N4 & N5 & N6 & N7).
    simpl.
    apply String.eqb_neq in N1, N2, N3, N4, N5, N6, N7.
    rewrite N1, N2, N3, N4, N5, N6, N7. reflexivity.
Qed.

(** The sample environment sets the five registrar settings and leaves the
    two defaults unset. *)
Lemma add_load_config_returns_iff_witness :
  AddSubdomain.load_config Sample.getenv = Return Sample.config.
Proof.
  apply (proj2 (add_load_config_returns_iff Sample.getenv Sample.config)).
  repeat split; discriminate.
Defined.

Lemma check_load_config_returns_iff
  (getenv : string -> pystr) (c : CheckOldRecords.config) :
  CheckOldRecords.load_config getenv = Return c
  <-> (getenv "NAMECHEAP_API_URL" = Some (CheckOldRecords.API_URL c)
       /\ getenv "NAMECHEAP_API_USER" = Some (CheckOldRecords.API_USER c)
       /\ getenv "NAMECHEAP_API_KEY" = Some (CheckOldRecords.API_KEY c)
       /\ getenv "NAMECHEAP_USERNAME" = Some (CheckOldRecords.USERNAME c)
       /\ getenv "NAMECHEAP_CLIENT_IP"
          = Some (CheckOldRecords.CLIENT_IP c))
      /\ CheckOldRecords.API_URL c <> ""
      /\ CheckOldRecords.API_USER c <> ""
      /\ CheckOldRecords.API_KEY c <> ""
      /\ CheckOldRecords.USERNAME c <> ""
      /\ CheckOldRecords.CLIENT_IP c <> "".
Proof.
  unfold CheckOldRecords.load_config.
  rewrite comprehension_if_filter.
  set (v1 := getenv "NAMECHEAP_API_URL").
  set (v2 := getenv "NAMECHEAP_API_USER").
  set (v3 := getenv "NAMECHEAP_API_KEY").
  set (v4 := getenv "NAMECHEAP_USERNAME").
  set (v5 := getenv "NAMECHEAP_CLIENT_IP").
  clearbody v1 v2 v3 v4 v5.
  destruct c as [c1 c2 c3 c4 c5].
  cbn [CheckOldRecords.API_URL CheckOldRecords.API_USER
       CheckOldRecords.API_KEY CheckOldRecords.USERNAME
       CheckOldRecords.CLIENT_IP].
  split.
  - destruct (map fst _) eqn:Em; [|discriminate].
    apply map_eq_nil in Em.
    pose proof (proj1 (filter_nil_iff _ _) Em) as H.
    assert (T : forall k v,
               In (k, v)
                 [ ("API_URL", v1); ("API_USER", v2); ("API_KEY", v3);
                   ("USERNAME", v4); ("CLIENT_IP", v5) ] ->
               exists s, v = Some s /\ s <> "").
    { intros k v Hin. apply truthy_true_iff. apply H in Hin. simpl in Hin.
      now apply negb_false_iff in Hin. }
    destruct (T _ v1 ltac:(simpl; auto 10)) as (s1 & -> & N1).
    destruct (T _ v2 ltac:(simpl; auto 10)) as (s2 & -> & N2).
    destruct (T _ v3 ltac:(simpl; auto 10)) as (s3 & -> & N3).
    destruct (T _ v4 ltac:(simpl; auto 10)) as (s4 & -> & N4).
    destruct (T _ v5 ltac:(simpl; auto 10)) as (s5 & -> & N5).
    simpl. intros E. injection E as <- <- <- <- <-.
    repeat split; assumption.
  - intros ((-> & -> & -> & -> & ->) & N1 & N2 & N3 & N4 & N5).
    simpl.
    apply String.eqb_neq in N1, N2, N3, N4, N5.
    rewrite N1, N2, N3, N4, N5. reflexivity.
Qed.

(** X6. Whatever environment the write script can load, the read script
    can load too, with the same five settings: the read script asks for
    nothing the write script does not ask for. *)
Theorem load_config_read_needs_less :
  forall (getenv : string -> pystr) (c : AddSubdomain.config),
    AddSubdomain.load_config getenv = Return c ->
    CheckOldRecords.load_config getenv
    = Return (CheckOldRecords.mk_config (AddSubdomain.API_URL c)
                (AddSubdomain.API_USER c) (AddSubdomain.API_KEY c)
                (AddSubdomain.USERNAME c) (AddSubdomain.CLIENT_IP c)).
Proof.
  intros getenv c H. apply add_load_config_returns_iff in H.
  destruct H as ((H1 & H2 & H3 & H4 & H5 & _) & N1 & N2 & N3 & N4 & N5 & _).
  apply check_load_config_returns_iff. simpl. repeat split; assumption.
Qed.

Lemma load_config_read_needs_less_witness :
  CheckOldRecords.load_config Sample.getenv = Return Sample.check_config.
Proof.
  exact (load_config_read_needs_less Sample.getenv Sample.config eq_refl).
Defined.

Ltac missing_key :=
  let H := fresh in
  let kv := fresh in
  let Hk := fresh in
  let Hf := fresh in
  let Hin := fresh in
  let Hp := fresh in
  split;
  [ intros H; apply in_map_iff in H; destruct H as (kv & Hk & Hf);
    apply filter_In in Hf; destruct Hf as (Hin & Hp);
    simpl in Hin;
    repeat (destruct Hin as [Hin|Hin]; [subst kv; simpl in Hk|]);
    try discriminate; try contradiction;
    simpl in Hp; now apply negb_true_iff in Hp
  | intros H; apply in_map_iff;
    eexists (_, _); split; [reflexivity|];
    apply filter_In; split;
    [simpl; auto 10|simpl; now apply negb_true_iff] ].

(** X7. When the write script cannot load its configuration, the error
    lists the settings that are unset or empty, and only those. The
    fallbacks of [DEFAULT_TTL] and [DEFAULT_IP] apply to a variable that is
    unset: one that is set to the empty string is reported as missing. *)
Theorem add_load_config_missing :
  forall (getenv : string -> pystr) (e : exn),
    AddSubdomain.load_config getenv = Raise e ->
    exists missing,
      e = MissingVariables missing
      /\ missing <> []
      /\ (In "API_URL" missing
          <-> truthy (getenv "NAMECHEAP_API_URL") = false)
      /\ (In "API_USER" missing
          <-> truthy (getenv "NAMECHEAP_API_USER") = false)
      /\ (In "API_KEY" missing
          <-> truthy (getenv "NAMECHEAP_API_KEY") = false)
      /\ (In "USERNAME" missing
          <-> truthy (getenv "NAMECHEAP_USERNAME") = false)
      /\ (In "CLIENT_IP" missing
          <-> truthy (getenv "NAMECHEAP_CLIENT_IP") = false)
      /\ (In "DEFAULT_TTL" missing <-> getenv "DEFAULT_TTL" = Some "")
      /\ (In "DEFAULT_IP" missing <-> getenv "DEFAULT_IP" = Some "").
Proof.
  intros getenv e. unfold AddSubdomain.load_config.
  rewrite comprehension_if_filter.
  assert (D : forall name default,
             truthy (AddSubdomain.getenv_default getenv name default)
             = false
             <-> getenv name = Some ""
                 \/ (getenv name = None /\ default = "")).
  { intros name default. unfold AddSubdomain.getenv_default.
    destruct (getenv name) as [s|]; simpl.
    - destruct (String.eqb_spec s "") as [->|Hs]; simpl.
      + split; auto.
      + split; [discriminate|]. intros [H|[H _]]; [|discriminate].
        injection H as ->. contradiction.
    - destruct (String.eqb_spec default "") as [->|Hs]; simpl.
      + split; auto.
      + split; [discriminate|]. intros [H|[_ H]]; [discriminate|].
        contradiction. }
  set (v6 := AddSubdomain.getenv_default getenv "DEFAULT_TTL" "1800").
  set (v7 := AddSubdomain.getenv_default getenv "DEFAULT_IP" "1.2.3.4").
  assert (D6 : truthy v6 = false <-> getenv "DEFAULT_TTL" = Some "").
  { unfold v6. rewrite D. split; [|auto].
    intros [H|[_ H]]; [exact H|discriminate]. }
  assert (D7 : truthy v7 = false <-> getenv "DEFAULT_IP" = Some "").
  { unfold v7. rewrite D. split; [|auto].
    intros [H|[_ H]]; [exact H|discriminate]. }
  clearbody v6 v7. clear D.
  set (v1 := getenv "NAMECHEAP_API_URL").
  set (v2 := getenv "NAMECHEAP_API_USER").
  set (v3 := getenv "NAMECHEAP_API_KEY").
  set (v4 := getenv "NAMECHEAP_USERNAME").
  set (v5 := getenv "NAMECHEAP_CLIENT_IP").
  clearbody v1 v2 v3 v4 v5.
  set (missing := map fst _).
  assert (K : (In "API_URL" missing <-> truthy v1 = false)
              /\ (In "API_USER" missing <-> truthy v2 = false)
              /\ (In "API_KEY" missing <-> truthy v3 = false)
              /\ (In "USERNAME" missing <-> truthy v4 = false)
              /\ (In "CLIENT_IP" missing <-> truthy v5 = false)
              /\ (In "DEFAULT_TTL" missing <-> truthy v6 = false)
              /\ (In "DEFAULT_IP" missing <-> truthy v7 = false)).
  { unfold missing. do 6 (split; [missing_key|]). missing_key. }
  destruct missing as [|k ks] eqn:Em; [discriminate|].
  intros E. injection E as <-. exists (k :: ks).
  split; [reflexivity|]. split; [discriminate|].
  rewrite <- D6, <- D7. exact K.
Qed.

Lemma add_load_config_missing_witness :
  exists missing,
    AddSubdomain.load_config Cases.getenv_empty_ttl
    = Raise (MissingVariables missing)
    /\ In "DEFAULT_TTL" missing.
Proof.
  destruct (add_load_config_missing Cases.getenv_empty_ttl
              (MissingVariables ["DEFAULT_TTL"]) eq_refl)
    as (missing & E & _ & _ & _ & _ & _ & _ & H & _).
  exists missing. split.
  - rewrite <- E. reflexivity.
  - apply H. reflexivity.
Defined.

(** ** The transport client, further *)

Lemma retry_policy_bound (reply : nat -> outcome) (n : nat) :
  forall i,
    fst (retry_policy reply i n) <= n
    /\ (0 < n -> 1 <= fst (retry_policy reply i n)).
Proof.
  induction n as [|n IH]; intros i; simpl.
  - split; lia.
  - destruct (accepted (reply i)); simpl; [split; lia|].
    destruct (IH (S i)) as [H _].
    destruct (retry_policy reply (S i) n) as [k r]. simpl in *.
    split; lia.
Qed.

(** X8. One call of the transport client sends at least one request and at
    most [max_retries], and they are all the same request: the URL and the
    parameters it was called with. *)
Theorem call_sends_one_to_max_requests :
  forall (net : network) (url : string) (params : dict pystr)
         (command : pystr) (max_retries : nat) (w : world),
    dict_get params "Command" = Some command ->
    0 < max_retries ->
    exists k,
      1 <= k <= max_retries
      /\ sent (snd (AddSubdomain.call_namecheap_api_with_retries net url
                      params max_retries w))
         = sent w ++ repeat (mk_request url params) k
      /\ sent (snd (CheckOldRecords.call_namecheap_api_with_retries net url
                      params max_retries w))
         = sent w ++ repeat (mk_request url params) k.
Proof.
  intros net url params command max_retries w Hc Hpos.
  destruct (add_call_retry_policy net url params max_retries command w Hc)
    as (wa & Ea & Hsa & _).
  destruct (check_call_retry_policy net url params max_retries command w Hc)
    as (wc & Ec & Hsc & _).
  destruct (retry_policy_bound (fun j => net j (mk_request url params))
              max_retries (length (sent w))) as [Hle Hge].
  eexists. rewrite Ea, Ec. cbn [snd].
  split; [|split; [exact Hsa|exact Hsc]]. split; auto.
Qed.

Lemma call_sends_one_to_max_requests_witness :
  exists k,
    1 <= k <= 3
    /\ sent (snd (AddSubdomain.call_namecheap_api_with_retries
                    Sample.net_third_time Sample.api_url Sample.some_params
                    3 initial_world))
       = repeat (mk_request Sample.api_url Sample.some_params) k.
Proof.
  destruct (call_sends_one_to_max_requests Sample.net_third_time
              Sample.api_url Sample.some_params
              (Some "namecheap.domains.dns.getHosts") 3 initial_world
              eq_refl) as (k & Hk & H & _).
  - lia.
  - exists k. split; [exact Hk|exact H].
Defined.


(** X10. The exit that the source marks as never reached is reached when
    [max_retries] is 0: the loop body does not run, nothing is sent or
    logged, and the call raises it. With [max_retries] at least 1 and a
    ["Command"] parameter it is not reached, in either script. *)
Theorem unexpected_exit_without_attempts :
  forall (net : network) (url : string) (params : dict pystr)
         (command : pystr) (max_retries : nat) (w : world),
    dict_get params "Command" = Some command ->
    AddSubdomain.call_namecheap_api_with_retries net url params 0 w
    = (Raise UnexpectedExit, w)
    /\ CheckOldRecords.call_namecheap_api_with_retries net url params 0 w
       = (Raise UnexpectedExit, w)
    /\ (0 < max_retries ->
        fst (AddSubdomain.call_namecheap_api_with_retries net url params
               max_retries w) <> Raise UnexpectedExit
        /\ fst (CheckOldRecords.call_namecheap_api_with_retries net url
                  params max_retries w) <> Raise UnexpectedExit).
Proof.
  intros net url params command max_retries w Hc.
  split; [reflexivity|]. split; [reflexivity|]. intros Hpos.
  destruct (add_call_retry_policy net url params max_retries command w Hc)
    as (wa & Ea & _).
  destruct (check_call_retry_policy net url params max_retries command w Hc)
    as (wc & Ec & _).
  rewrite Ea, Ec. cbn [fst].
  destruct max_retries as [|n]; [lia|].
  destruct (snd (retry_policy _ _ (S n))); split; discriminate.
Qed.

Lemma unexpected_exit_without_attempts_witness :
  AddSubdomain.call_namecheap_api_with_retries Sample.net_down
    Sample.api_url Sample.some_params 0 initial_world
  = (Raise UnexpectedExit, initial_world)
  /\ fst (AddSubdomain.call_namecheap_api_with_retries Sample.net_down
            Sample.api_url Sample.some_params 3 initial_world)
     <> Raise UnexpectedExit.
Proof.
  destruct (unexpected_exit_without_attempts Sample.net_down
              Sample.api_url Sample.some_params
              (Some "namecheap.domains.dns.getHosts") 3 initial_world
              eq_refl) as (H0 & _ & H).
  split; [exact H0|]. apply H. lia.
Defined.

(** X11. Parameters without a ["Command"] make the first attempt raise
    [KeyError] while it builds its log line: before any request is sent,
    and outside what the [except] clause catches, so the call stops there
    in both scripts. *)
Theorem missing_command_raises_before_sending :
  forall (net : network) (url : string) (params : dict pystr)
         (max_retries : nat) (w : world),
    dict_get params "Command" = None ->
    0 < max_retries ->
    AddSubdomain.call_namecheap_api_with_retries net url params
      max_retries w = (Raise (KeyError "Command"), w)
    /\ CheckOldRecords.call_namecheap_api_with_retries net url params
         max_retries w = (Raise (KeyError "Command"), w).
Proof.
  intros net url params max_retries w Hc Hpos.
  unfold AddSubdomain.call_namecheap_api_with_retries,
    CheckOldRecords.call_namecheap_api_with_retries.
  destruct max_retries as [|n]; [lia|]. simpl.
  unfold bind, subscript. rewrite Hc. simpl. auto.
Qed.

Lemma missing_command_raises_before_sending_witness :
  AddSubdomain.call_namecheap_api_with_retries Sample.net_down
    Sample.api_url [("SLD", Some "example")] 3 initial_world
  = (Raise (KeyError "Command"), initial_world).
Proof.
  apply (missing_command_raises_before_sending Sample.net_down
           Sample.api_url [("SLD", Some "example")] 3 initial_world).
  - reflexivity.
  - lia.
Defined.

(** One turn of the loop leaves one warning, naming the attempt, when the
    attempt fails, and none when it returns. *)
Ltac loop_warn_step :=
  intros Hc; simpl; unfold bind, subscript; rewrite Hc;
  unfold ret, raise, logger, requests_get; simpl;
  match goal with
  | |- context [accepted ?o] =>
      destruct o as [e|response]; simpl;
      [|destruct (status_code response =? 200)%Z; simpl]
  end;
  try (destruct (_ <? _)%nat);
  eexists; (split; [|split]); try reflexivity;
  unfold warned_attempts; simpl; rewrite ?flat_map_app; simpl;
  rewrite ?app_nil_r; reflexivity.

Lemma add_attempts_loop_warns net url params max_retries command
  attempt rest w :
  dict_get params "Command" = Some command ->
  exists w1,
    sent w1 = sent w ++ [mk_request url params]
    /\ warned_attempts w1
       = warned_attempts w
         ++ match accepted (net (length (sent w)) (mk_request url params))
            with
            | Some _ => []
            | None => [attempt]
            end
    /\ AddSubdomain.attempts_loop net url params max_retries
         (attempt :: rest) w
       = match accepted (net (length (sent w)) (mk_request url params)) with
         | Some response => (Return response, w1)
         | None =>
             if (attempt <? max_retries)%nat then
               AddSubdomain.attempts_loop net url params max_retries rest w1
             else (Raise (FailedAfterRetries max_retries), w1)
         end.
Proof. loop_warn_step. Qed.

Lemma check_attempts_loop_warns net url params max_retries command
  attempt rest w :
  dict_get params "Command" = Some command ->
  exists w1,
    sent w1 = sent w ++ [mk_request url params]
    /\ warned_attempts w1
       = warned_attempts w
         ++ match accepted (net (length (sent w)) (mk_request url params))
            with
            | Some _ => []
            | None => [attempt]
            end
    /\ CheckOldRecords.attempts_loop net url params max_retries
         (attempt :: rest) w
       = match accepted (net (length (sent w)) (mk_request url params)) with
         | Some response => (Return response, w1)
         | None =>
             if (attempt <? max_retries)%nat then
               CheckOldRecords.attempts_loop net url params max_retries
                 rest w1
             else (Raise (FailedAfterRetries max_retries), w1)
         end.
Proof. loop_warn_step. Qed.

Section RetryWarnings.
Variable net : network.
Variable url : string.
Variable params : dict pystr.
Variable max_retries : nat.
Variable loop : list nat -> M Response.

Hypothesis loop_nil : forall w, loop [] w = (Raise UnexpectedExit, w).
Hypothesis loop_cons :
  forall attempt rest w,
  exists w1,
    sent w1 = sent w ++ [mk_request url params]
    /\ warned_attempts w1
       = warned_attempts w
         ++ match accepted (net (length (sent w)) (mk_request url params))
            with
            | Some _ => []
            | None => [attempt]
            end
    /\ loop (attempt :: rest) w
       = match accepted (net (length (sent w)) (mk_request url params)) with
         | Some response => (Return response, w1)
         | None =>
             if (attempt <? max_retries)%nat then loop rest w1
             else (Raise (FailedAfterRetries max_retries), w1)
         end.

Lemma loop_warnings n :
  forall a w,
    a + n = S max_retries ->
    warned_attempts (snd (loop (seq a n) w))
    = warned_attempts w
      ++ seq a
           (match snd (retry_policy (fun j => net j (mk_request url params))
                         (length (sent w)) n) with
            | Some _ =>
                pred (fst (retry_policy
                             (fun j => net j (mk_request url params))
                             (length (sent w)) n))
            | None =>
                fst (retry_policy (fun j => net j (mk_request url params))
                       (length (sent w)) n)
            end).
Proof.
  induction n as [|n IH]; intros a w Han.
  - simpl. rewrite loop_nil. simpl. now rewrite app_nil_r.
  - destruct (loop_cons a (seq (S a) n) w) as (w1 & Hs & Hw & E).
    simpl seq. rewrite E. simpl retry_policy.
    destruct (accepted (net (length (sent w)) (mk_request url params)))
      as [response|].
    + simpl. rewrite Hw. reflexivity.
    + assert (Hlen : length (sent w1) = S (length (sent w))).
      { rewrite Hs, length_app. simpl. lia. }
      destruct (Nat.ltb_spec a max_retries) as [Hlt|Hge].
      * rewrite (IH (S a) w1) by lia. rewrite Hlen, Hw.
        pose proof (retry_policy_bound
                      (fun j => net j (mk_request url params)) n
                      (S (length (sent w)))) as [_ Hk].
        destruct (retry_policy (fun j => net j (mk_request url params))
                    (S (length (sent w))) n) as [k r].
        simpl in *. rewrite <- app_assoc. f_equal.
        destruct r; [|reflexivity].
        destruct k; [lia|reflexivity].
      * assert (n = 0) by lia. subst n. simpl. rewrite Hw. reflexivity.
Qed.

End RetryWarnings.

(** X12. Every attempt that does not return the response leaves exactly
    one warning in the log, with its number, whether it failed by an
    exception or by its status; the attempt that returns leaves none. *)
Theorem failed_attempts_are_warned :
  forall (net : network) (url : string) (params : dict pystr)
         (command : pystr) (max_retries : nat) (w : world),
    dict_get params "Command" = Some command ->
    let policy :=
      retry_policy (fun j => net j (mk_request url params))
        (length (sent w)) max_retries in
    let failures :=
      match snd policy with
      | Some _ => pred (fst policy)
      | None => fst policy
      end in
    warned_attempts
      (snd (AddSubdomain.call_namecheap_api_with_retries net url params
              max_retries w))
    = warned_attempts w ++ seq 1 failures
    /\ warned_attempts
         (snd (CheckOldRecords.call_namecheap_api_with_retries net url
                 params max_retries w))
       = warned_attempts w ++ seq 1 failures.
Proof.
  intros net url params command max_retries w Hc policy failures.
  unfold AddSubdomain.call_namecheap_api_with_retries,
    CheckOldRecords.call_namecheap_api_with_retries.
  split.
  - apply loop_warnings with (max_retries := max_retries);
      [reflexivity| |reflexivity].
    intros attempt rest w0. now apply add_attempts_loop_warns with command.
  - apply loop_warnings with (max_retries := max_retries);
      [reflexivity| |reflexivity].
    intros attempt rest w0.
    now apply check_attempts_loop_warns with command.
Qed.

(** An exception, then status 503, then status 200: warnings for the
    attempts 1 and 2. *)
Lemma failed_attempts_are_warned_witness :
  warned_attempts
    (snd (AddSubdomain.call_namecheap_api_with_retries
            Sample.net_third_time Sample.api_url Sample.some_params 3
            initial_world))
  = [1; 2].
Proof.
  exact (proj1 (failed_attempts_are_warned Sample.net_third_time
                  Sample.api_url Sample.some_params
                  (Some "namecheap.domains.dns.getHosts") 3 initial_world
                  eq_refl)).
Defined.

(** ** Namespace stripping *)

(** Induction on a tree, with the hypothesis for every child. *)
Lemma Element_tree_ind (P : Element -> Prop) :
  (forall t a x cs, Forall P cs -> P (Elem t a x cs)) ->
  forall e, P e.
Proof.
  intros H. fix IH 1. intros [t a x cs]. apply H.
  induction cs as [|c cs IHcs]; constructor; [apply IH|exact IHcs].
Qed.

Lemma flat_map_map {A B C} (f : A -> B) (g : B -> list C) (l : list A) :
  flat_map g (map f l) = flat_map (fun x => g (f x)) l.
Proof.
  induction l as [|x l IH]; simpl; [reflexivity|]. now rewrite IH.
Qed.

Lemma flat_map_ext_Forall {A B} (f g : A -> list B) (l : list A) :
  Forall (fun x => f x = g x) l -> flat_map f l = flat_map g l.
Proof.
  induction 1 as [|x l Hx _ IH]; simpl; [reflexivity|].
  now rewrite Hx, IH.
Qed.

Lemma flat_map_map_out {A B} (f : B -> B) (g : A -> list B) (l : list A) :
  flat_map (fun x => map f (g x)) l = map f (flat_map g l).
Proof.
  induction l as [|x l IH]; simpl; [reflexivity|].
  now rewrite map_app, IH.
Qed.

Lemma iter_strip_namespaces (e : Element) :
  iter (strip_namespaces e) = map strip_namespaces (iter e).
Proof.
  induction e as [t a x cs IH] using Element_tree_ind.
  simpl. f_equal. rewrite flat_map_map.
  rewrite <- flat_map_map_out. now apply flat_map_ext_Forall.
Qed.

Lemma node_data_strip_namespaces (e : Element) :
  node_data (strip_namespaces e)
  = (strip_tag (tag e), attrib e, text e).
Proof. destruct e; reflexivity. Qed.

(** X13. [strip_namespaces] reaches every node of the tree, the root and
    the nested ones: the nodes of the result, in document order, are the
    nodes of the input with the tag stripped and the attributes and the
    text as they were. *)
Theorem strip_namespaces_every_node :
  forall (elem : Element),
    map node_data (iter (strip_namespaces elem))
    = map (fun e => (strip_tag (tag e), attrib e, text e)) (iter elem).
Proof.
  intros elem. rewrite iter_strip_namespaces, map_map.
  apply map_ext. intros e. apply node_data_strip_namespaces.
Qed.

Lemma filter_map_swap {A B} (f : A -> B) (p : B -> bool) (l : list A) :
  filter p (map f l) = map f (filter (fun x => p (f x)) l).
Proof.
  induction l as [|x l IH]; simpl; [reflexivity|].
  destruct (p (f x)); simpl; now rewrite IH.
Qed.

Lemma descendants_strip_namespaces (root : Element) :
  descendants (strip_namespaces root)
  = map strip_namespaces (descendants root).
Proof.
  destruct root as [t a x cs]. unfold descendants. simpl.
  rewrite flat_map_map, <- flat_map_map_out.
  apply flat_map_ext. intros e. apply iter_strip_namespaces.
Qed.

Lemma tag_strip_namespaces (e : Element) :
  tag (strip_namespaces e) = strip_tag (tag e).
Proof. destruct e; reflexivity. Qed.

(** X14. For a plain tag name [t], the query [.//t] on the stripped tree
    finds the descendants whose tag strips to [t], in document order, each
    one stripped: an element in a namespace is found by its local name. *)
Theorem findall_after_strip_namespaces :
  forall (root : Element) (t : string),
    plain_tag t = true ->
    findall_descendant (strip_namespaces root) t
    = map strip_namespaces
        (filter (fun e => strip_tag (tag e) =? t) (descendants root)).
Proof.
  intros root t _. unfold findall_descendant.
  rewrite descendants_strip_namespaces, filter_map_swap. f_equal.
  apply filter_ext. intros e. unfold has_tag.
  now rewrite tag_strip_namespaces.
Qed.

(** The two tags the scripts look for in a [getHosts] response. *)
Lemma findall_after_strip_namespaces_witness :
  findall_descendant (strip_namespaces Sample.empty_error_tree) "Error"
  = [Elem "Error" [("Number", "0")] None []]
  /\ length
       (findall_descendant (strip_namespaces Sample.getHosts_tree)
          "DomainDNSGetHostsResult") = 1.
Proof.
  split.
  - rewrite (findall_after_strip_namespaces Sample.empty_error_tree
               "Error" eq_refl).
    reflexivity.
  - rewrite (findall_after_strip_namespaces Sample.getHosts_tree
               "DomainDNSGetHostsResult" eq_refl).
    reflexivity.
Defined.

Lemma after_brace_app_no_brace (a b : string) :
  after_brace a = None ->
  after_brace (a ++ String "}" b) = Some b.
Proof.
  induction a as [|c a IH]; simpl; [reflexivity|].
  destruct (Ascii.eqb c "}"); [discriminate|]. exact IH.
Qed.

Lemma strip_tag_no_brace (t : string) :
  has_brace t = false -> strip_tag t = t.
Proof.
  unfold has_brace, strip_tag.
  destruct (after_brace t); [discriminate|reflexivity].
Qed.

(** X15. A tag without ['}'] is left as it is. A tag [{uri}local], with no
    ['}'] in the namespace, becomes [local]; what is cut is the text up to
    the first ['}'], so the result is free of ['}'] exactly when the local
    part is. *)
Theorem strip_tag_cases :
  forall (t uri local : string),
    (has_brace t = false -> strip_tag t = t)
    /\ (has_brace uri = false ->
        strip_tag (qualified uri local) = local
        /\ has_brace (strip_tag (qualified uri local)) = has_brace local).
Proof.
  intros t uri local. unfold has_brace, strip_tag. split.
  - destruct (after_brace t); [discriminate|reflexivity].
  - intros H. unfold qualified. simpl.
    rewrite after_brace_app_no_brace.
    + auto.
    + destruct (after_brace uri); [discriminate|reflexivity].
Qed.

Lemma strip_tag_cases_witness :
  strip_tag "host" = "host"
  /\ strip_tag (qualified "http://api.namecheap.com/xml.response" "host")
     = "host".
Proof.
  destruct (strip_tag_cases "host" "http://api.namecheap.com/xml.response"
              "host") as [H1 H2].
  split; [apply H1; reflexivity|apply H2; reflexivity].
Defined.

Lemma map_id_Forall {A} (f : A -> A) (l : list A) :
  Forall (fun x => f x = x) l -> map f l = l.
Proof.
  induction 1 as [|x l Hx _ IH]; simpl; [reflexivity|].
  now rewrite Hx, IH.
Qed.

(** X16. A tree none of whose tags holds a ['}'] is returned unchanged. *)
Theorem strip_namespaces_without_braces :
  forall (elem : Element),
    (forall e, In e (iter elem) -> has_brace (tag e) = false) ->
    strip_namespaces elem = elem.
Proof.
  induction elem as [t a x cs IH] using Element_tree_ind.
  intros H. simpl. f_equal.
  - apply strip_tag_no_brace. apply (H (Elem t a x cs)). now left.
  - apply map_id_Forall. rewrite Forall_forall in *.
    intros c Hc. apply IH; [exact Hc|].
    intros e He. apply H. simpl. right.
    apply in_flat_map. eauto.
Qed.

Lemma strip_namespaces_without_braces_witness :
  strip_namespaces (strip_namespaces Sample.getHosts_tree)
  = strip_namespaces Sample.getHosts_tree.
Proof.
  apply strip_namespaces_without_braces.
  intros e He. simpl in He.
  repeat (destruct He as [<-|He]; [reflexivity|]). contradiction.
Defined.

(** ** The host list, further *)

Lemma add_host_dict_with_default (config : AddSubdomain.config)
  (host : Element) :
  AddSubdomain.host_dict config host
  = with_default_ttl (AddSubdomain.DEFAULT_TTL config)
      (CheckOldRecords.host_dict host).
Proof.
  unfold AddSubdomain.host_dict, CheckOldRecords.host_dict,
    with_default_ttl, get_default, get. simpl.
  destruct (dict_get (attrib host) "TTL"); reflexivity.
Qed.

(** X17. On the same tree the write script gathers the records the read
    script gathers, one for one and in the same order, with the default
    TTL in the place of every [TTL] that is [None]. *)
Theorem gather_hosts_write_is_read_with_default :
  forall (config : AddSubdomain.config) (root : Element),
    AddSubdomain.gather_hosts config root
    = map (with_default_ttl (AddSubdomain.DEFAULT_TTL config))
        (CheckOldRecords.gather_hosts root).
Proof.
  intros config root.
  unfold AddSubdomain.gather_hosts, CheckOldRecords.gather_hosts.
  rewrite !for_append_map, map_map. apply map_ext.
  intros host. apply add_host_dict_with_default.
Qed.

(** X18. A [host] element without a [Name] attribute is not rejected: the
    write script reads it as a record whose [HostName] is [None], and step
    5 keeps that record whatever host name is being set. *)
Theorem nameless_host_is_kept :
  forall (config : AddSubdomain.config) (root host : Element)
         (subdomain ip_address : string),
    In host
      (findall_descendant_child root "DomainDNSGetHostsResult" "host") ->
    get host "Name" = None ->
    HostName (AddSubdomain.host_dict config host) = None
    /\ In (AddSubdomain.host_dict config host)
         (AddSubdomain.gather_hosts config root)
    /\ In (AddSubdomain.host_dict config host)
         (AddSubdomain.updated_records config
            (AddSubdomain.gather_hosts config root) subdomain ip_address).
Proof.
  intros config root host sub ip Hin Hname.
  assert (Hg : In (AddSubdomain.host_dict config host)
                 (AddSubdomain.gather_hosts config root)).
  { unfold AddSubdomain.gather_hosts. rewrite for_append_map.
    now apply in_map. }
  split; [exact Hname|]. split; [exact Hg|].
  rewrite updated_records_eq. apply in_or_app. left.
  unfold kept. apply filter_In. split; [exact Hg|].
  unfold AddSubdomain.same_A_record. simpl. rewrite Hname. reflexivity.
Qed.

Lemma nameless_host_is_kept_witness :
  let root :=
    Elem "ApiResponse" [] None
      [ Elem "DomainDNSGetHostsResult" [] None
          [ Elem "host" [("Type", "A"); ("Address", "1.1.1.1")] None [] ] ]
  in
  In (mk_host None (Some "A") (Some "1.1.1.1") (Some "") (Some "1800"))
    (AddSubdomain.updated_records Sample.config
       (AddSubdomain.gather_hosts Sample.config root) "dev" "9.9.9.9").
Proof.
  intros root.
  apply (nameless_host_is_kept Sample.config root
           (Elem "host" [("Type", "A"); ("Address", "1.1.1.1")] None [])
           "dev" "9.9.9.9").
  - left. reflexivity.
  - reflexivity.
Defined.

(** ** The parameters of the push *)

Lemma dict_get_set_same {V} (d : dict V) (k : string) (v : V) :
  dict_get (dict_set d k v) k = Some v.
Proof.
  induction d as [|[k' v'] d IH]; simpl.
  - now rewrite String.eqb_refl.
  - destruct (k' =? k) eqn:E; simpl; rewrite E; [reflexivity|exact IH].
Qed.

Lemma dict_get_set_other {V} (d : dict V) (k k' : string) (v : V) :
  k <> k' -> dict_get (dict_set d k v) k' = dict_get d k'.
Proof.
  intros Hne. induction d as [|[k0 v0] d IH]; simpl.
  - apply String.eqb_neq in Hne. now rewrite Hne.
  - destruct (String.eqb_spec k0 k) as [->|H0]; simpl.
    + apply String.eqb_neq in Hne. now rewrite Hne.
    + destruct (k0 =? k'); [reflexivity|exact IH].
Qed.

Lemma str_of_nat_inj (i j : nat) : str_of_nat i = str_of_nat j -> i = j.
Proof.
  unfold str_of_nat. intros H.
  assert (E : Nat.to_uint i = Nat.to_uint j).
  { apply (f_equal NilEmpty.uint_of_string) in H.
    rewrite !NilEmpty.usu in H. now injection H. }
  apply (f_equal Nat.of_uint) in E.
  now rewrite !DecimalNat.Unsigned.of_to in E.
Qed.

Lemma field_key_inj (f g : host_field) (i j : nat) :
  field_key f i = field_key g j -> f = g /\ i = j.
Proof.
  unfold field_key.
  destruct f, g; simpl; intros H; try discriminate;
    split; try reflexivity; apply str_of_nat_inj;
    repeat (injection H as H); exact H.
Qed.

(** The keys of the hosts are none of the seven keys of the command. *)
Lemma command_key_not_field (k : string) (f : host_field) (i : nat) :
  command_key k -> k <> field_key f i.
Proof.
  unfold command_key, field_key. simpl.
  intros H E. subst k.
  destruct f; simpl in H;
    repeat (destruct H as [H|H]; [discriminate H|]); exact H.
Qed.

Lemma add_host_params_field config ps i host f :
  dict_get (AddSubdomain.add_host_params config ps (i, host))
    (field_key f i)
  = Some (field_value config f host).
Proof.
  unfold AddSubdomain.add_host_params.
  change ("HostName" ++ str_of_nat i)%string with (field_key FHostName i).
  change ("RecordType" ++ str_of_nat i)%string
    with (field_key FRecordType i).
  change ("Address" ++ str_of_nat i)%string with (field_key FAddress i).
  change ("MXPref" ++ str_of_nat i)%string with (field_key FMXPref i).
  change ("TTL" ++ str_of_nat i)%string with (field_key FTTL i).
  assert (N : forall g h, g <> h -> field_key g i <> field_key h i).
  { intros g h Hne E. apply field_key_inj in E. tauto. }
  destruct f;
    repeat first
      [ rewrite dict_get_set_same; reflexivity
      | rewrite dict_get_set_other by (apply N; discriminate) ].
Qed.

Lemma add_host_params_other config ps i host k :
  (forall f, k <> field_key f i) ->
  dict_get (AddSubdomain.add_host_params config ps (i, host)) k
  = dict_get ps k.
Proof.
  intros H. unfold AddSubdomain.add_host_params.
  pose proof (H FHostName) as H1. pose proof (H FRecordType) as H2.
  pose proof (H FAddress) as H3. pose proof (H FMXPref) as H4.
  pose proof (H FTTL) as H5. unfold field_key in *. simpl in *.
  rewrite !dict_get_set_other by (intros E; symmetry in E; contradiction).
  reflexivity.
Qed.

Lemma fold_host_params_other config hosts :
  forall start ps k,
    (forall f j, start <= j < start + length hosts -> k <> field_key f j) ->
    dict_get
      (fold_left (AddSubdomain.add_host_params config)
         (combine (seq start (length hosts)) hosts) ps) k
    = dict_get ps k.
Proof.
  induction hosts as [|h hosts IH]; intros start ps k H; simpl.
  - reflexivity.
  - rewrite IH.
    + apply add_host_params_other. intros f. apply H. simpl. lia.
    + intros f j Hj. apply H. simpl. lia.
Qed.

Lemma fold_host_params_field config hosts :
  forall start ps i host f,
    nth_error hosts i = Some host ->
    dict_get
      (fold_left (AddSubdomain.add_host_params config)
         (combine (seq start (length hosts)) hosts) ps)
      (field_key f (start + i))
    = Some (field_value config f host).
Proof.
  induction hosts as [|h hosts IH]; intros start ps i host f Hi.
  - destruct i; discriminate.
  - simpl. destruct i as [|i]; simpl in Hi.
    + injection Hi as ->. rewrite Nat.add_0_r.
      rewrite fold_host_params_other.
      * apply add_host_params_field.
      * intros g j Hj E. apply field_key_inj in E. lia.
    + replace (start + S i) with (S start + i) by lia.
      now apply IH.
Qed.

Lemma setHosts_params_field config sld tld hosts i host f :
  nth_error hosts i = Some host ->
  dict_get (params (setHosts_request config sld tld hosts))
    (field_key f (S i))
  = Some (field_value config f host).
Proof.
  intros Hi. unfold setHosts_request, enumerate1. simpl params.
  now apply (fold_host_params_field config hosts 1).
Qed.

Lemma setHosts_params_command_key config sld tld hosts k :
  command_key k ->
  dict_get (params (setHosts_request config sld tld hosts)) k
  = dict_get (base_params config sld tld "namecheap.domains.dns.setHosts")
      k.
Proof.
  intros Hk. unfold setHosts_request, enumerate1. simpl params.
  apply fold_host_params_other.
  intros f j _. now apply command_key_not_field.
Qed.

Lemma setHosts_params_command config sld tld hosts :
  dict_get (params (setHosts_request config sld tld hosts)) "Command"
  = Some (Some "namecheap.domains.dns.setHosts").
Proof.
  rewrite setHosts_params_command_key; [reflexivity|].
  unfold command_key. simpl. auto.
Qed.

Lemma setHosts_request_is_push config sld tld hosts :
  is_push (setHosts_request config sld tld hosts) = true
  /\ is_fetch (setHosts_request config sld tld hosts) = false.
Proof.
  unfold is_push, is_fetch. rewrite setHosts_params_command. auto.
Qed.

(** X19. The parameters of the push carry every host under its number,
    counted from 1: the name, type and address as they are, ["10"] for an
    [MXPref] that is empty or [None], the default TTL for a [TTL] that is
    empty or [None]. No host parameter has the number 0 or a number above
    the number of hosts, and the command, [SLD] and [TLD] are in place. *)
Theorem push_params_carry_every_host :
  forall (config : AddSubdomain.config) (sld tld : string)
         (hosts : list host_record),
    let ps := params (setHosts_request config sld tld hosts) in
    (forall i host f,
        nth_error hosts i = Some host ->
        dict_get ps (field_key f (S i)) = Some (field_value config f host))
    /\ (forall f j,
          j = 0 \/ length hosts < j -> dict_get ps (field_key f j) = None)
    /\ dict_get ps "Command"
       = Some (Some "namecheap.domains.dns.setHosts")
    /\ dict_get ps "SLD" = Some (Some sld)
    /\ dict_get ps "TLD" = Some (Some tld).
Proof.
  intros config sld tld hosts ps. unfold ps.
  split; [|split; [|split; [|split]]].
  - intros i host f Hi. now apply setHosts_params_field.
  - intros f j Hj. unfold setHosts_request, enumerate1. simpl params.
    rewrite fold_host_params_other.
    + unfold field_key. destruct f; reflexivity.
    + intros g j' Hj' E. apply field_key_inj in E. lia.
  - apply setHosts_params_command.
  - rewrite setHosts_params_command_key; [reflexivity|].
    unfold command_key. simpl. auto 10.
  - rewrite setHosts_params_command_key; [reflexivity|].
    unfold command_key. simpl. auto 10.
Qed.

Lemma push_params_carry_every_host_witness :
  let ps := params (setHosts_request Sample.config "example" "com"
                      Cases.two_hosts) in
  dict_get ps "HostName2" = Some (Some "mail")
  /\ dict_get ps "MXPref1" = Some (Some "10")
  /\ dict_get ps "MXPref2" = Some (Some "5")
  /\ dict_get ps "TTL2" = Some (Some "1800")
  /\ dict_get ps "HostName3" = None.
Proof.
  intros ps.
  destruct (push_params_carry_every_host Sample.config "example" "com"
              Cases.two_hosts) as (H & H0 & _).
  split; [exact (H 1 _ FHostName eq_refl)|].
  split; [exact (H 0 _ FMXPref eq_refl)|].
  split; [exact (H 1 _ FMXPref eq_refl)|].
  split; [exact (H 1 _ FTTL eq_refl)|].
  apply (H0 FHostName 3). right. simpl. lia.
Defined.

Lemma field_value_of_host_dict config (host : Element) :
  field_value config FHostName (AddSubdomain.host_dict config host)
  = get host "Name"
  /\ field_value config FRecordType (AddSubdomain.host_dict config host)
     = get host "Type"
  /\ field_value config FAddress (AddSubdomain.host_dict config host)
     = get host "Address"
  /\ field_value config FMXPref (AddSubdomain.host_dict config host)
     = (if truthy (get host "MXPref") then get host "MXPref"
        else Some "10")
  /\ field_value config FTTL (AddSubdomain.host_dict config host)
     = (if truthy (get host "TTL") then get host "TTL"
        else Some (AddSubdomain.DEFAULT_TTL config)).
Proof.
  unfold field_value, AddSubdomain.host_dict, get_default, get. simpl.
  repeat split.
  - destruct (dict_get (attrib host) "MXPref") as [m|]; reflexivity.
  - destruct (dict_get (attrib host) "TTL") as [t|]; [reflexivity|].
    simpl. now destruct (AddSubdomain.DEFAULT_TTL config =? "").
Qed.

(** X20. Fetch, step 5 and the push together: every [host] element of the
    response that is not an A record of the host name being set is written
    back under some number, with its name, type and address as they were
    read, ["10"] for an [MXPref] that is absent or empty and the default
    TTL for a [TTL] that is absent or empty. *)
Theorem untouched_hosts_are_written_back :
  forall (config : AddSubdomain.config) (sld tld : string)
         (root host : Element) (subdomain ip_address : string),
    In host
      (findall_descendant_child root "DomainDNSGetHostsResult" "host") ->
    AddSubdomain.same_A_record subdomain
      (AddSubdomain.host_dict config host) = false ->
    let pushed :=
      AddSubdomain.updated_records config
        (AddSubdomain.gather_hosts config root) subdomain ip_address in
    let ps := params (setHosts_request config sld tld pushed) in
    exists j,
      1 <= j <= length pushed
      /\ dict_get ps (field_key FHostName j) = Some (get host "Name")
      /\ dict_get ps (field_key FRecordType j) = Some (get host "Type")
      /\ dict_get ps (field_key FAddress j) = Some (get host "Address")
      /\ dict_get ps (field_key FMXPref j)
         = Some (if truthy (get host "MXPref") then get host "MXPref"
                 else Some "10")
      /\ dict_get ps (field_key FTTL j)
         = Some (if truthy (get host "TTL") then get host "TTL"
                 else Some (AddSubdomain.DEFAULT_TTL config)).
Proof.
  intros config sld tld root host sub ip Hin Hkeep pushed ps.
  assert (Hp : In (AddSubdomain.host_dict config host) pushed).
  { unfold pushed. rewrite updated_records_eq. apply in_or_app. left.
    unfold kept. apply filter_In. split.
    - unfold AddSubdomain.gather_hosts. rewrite for_append_map.
      now apply in_map.
    - now rewrite Hkeep. }
  apply In_nth_error in Hp. destruct Hp as (i & Hi).
  assert (Hlt : i < length pushed).
  { apply nth_error_Some. rewrite Hi. discriminate. }
  exists (S i). split; [lia|]. unfold ps.
  rewrite !(setHosts_params_field config sld tld pushed i _ _ Hi).
  destruct (field_value_of_host_dict config host)
    as (-> & -> & -> & -> & ->).
  auto.
Qed.

(** The [www] record of the sample response, which has neither [MXPref]
    nor [TTL], is written back with ["10"] and ["1800"]. *)
Lemma untouched_hosts_are_written_back_witness :
  let pushed :=
    AddSubdomain.updated_records Sample.config
      (AddSubdomain.gather_hosts Sample.config
         (strip_namespaces Sample.getHosts_tree)) "dev" "9.9.9.9" in
  let ps := params (setHosts_request Sample.config "example" "com" pushed)
  in
  exists j,
    1 <= j <= length pushed
    /\ dict_get ps (field_key FHostName j) = Some (Some "www")
    /\ dict_get ps (field_key FMXPref j) = Some (Some "10")
    /\ dict_get ps (field_key FTTL j) = Some (Some "1800").
Proof.
  intros pushed ps.
  destruct (untouched_hosts_are_written_back Sample.config "example" "com"
              (strip_namespaces Sample.getHosts_tree)
              (strip_namespaces Sample.host_www) "dev" "9.9.9.9")
    as (j & Hj & H1 & _ & _ & H4 & H5).
  - right. left. reflexivity.
  - reflexivity.
  - exists j. split; [exact Hj|]. split; [exact H1|].
    split; [exact H4|exact H5].
Defined.

(** ** Pushing the records, further *)

Lemma set_dns_records_spec net fromstring config sld tld hosts w :
  let req := setHosts_request config sld tld hosts in
  let policy := retry_policy (fun j => net j req) (length (sent w)) 3 in
  exists w',
    AddSubdomain.set_dns_records net fromstring config sld tld hosts w
    = (push_result fromstring (snd policy), w')
    /\ sent w' = sent w ++ repeat req (fst policy).
Proof.
  intros req policy.
  destruct (add_call_retry_policy net (AddSubdomain.API_URL config)
              (params req) 3 (Some "namecheap.domains.dns.setHosts") w
              (setHosts_params_command config sld tld hosts))
    as (w' & E & Hs & _).
  change (mk_request (AddSubdomain.API_URL config) (params req))
    with req in E, Hs.
  fold policy in E, Hs.
  unfold AddSubdomain.set_dns_records, bind.
  change (AddSubdomain.call_namecheap_api_with_retries net
            (AddSubdomain.API_URL config) _ 3 w)
    with (AddSubdomain.call_namecheap_api_with_retries net
            (AddSubdomain.API_URL config) (params req) 3 w).
  rewrite E. unfold push_result.
  destruct (snd policy) as [response|]; [|eauto].
  unfold ET_fromstring.
  destruct (fromstring (response_text response)) as [root|];
    unfold raise, ret; [|eauto].
  destruct (AddSubdomain.update_failed _); eauto.
Qed.

(** The response the policy returns is the reply to the last request it
    made, and that reply has status 200. *)
Lemma retry_policy_returns_last (reply : nat -> outcome) (n : nat) :
  forall i response,
    snd (retry_policy reply i n) = Some response ->
    reply (i + pred (fst (retry_policy reply i n))) = Got response
    /\ status_code response = 200%Z.
Proof.
  induction n as [|n IH]; intros i response; simpl; [discriminate|].
  destruct (accepted (reply i)) as [r|] eqn:Ea; simpl.
  - intros H. injection H as ->. rewrite Nat.add_0_r.
    now apply accepted_Some_iff.
  - destruct n as [|m]; [discriminate|].
    specialize (IH (S i) response).
    pose proof (retry_policy_bound reply (S m) (S i)) as [_ Hk].
    destruct (retry_policy reply (S i) (S m)) as [k r]. cbn [fst snd] in *.
    intros H. destruct (IH H) as [H1 H2]. split; [|exact H2].
    replace (i + pred (S k)) with (S i + pred k) by lia. exact H1.
Qed.

Lemma set_dns_records_returns_confirmed :
  forall (net : network) (fromstring : string -> option Element)
         (config : AddSubdomain.config) (sld tld : string)
         (hosts : list host_record) (w : world),
    let req := setHosts_request config sld tld hosts in
    let run :=
      AddSubdomain.set_dns_records net fromstring config sld tld hosts w in
    fst run = Return tt ->
    exists response root result,
          net (pred (length (sent (snd run)))) req = Got response
          /\ snd (retry_policy (fun j => net j req) (length (sent w)) 3)
             = Some response
          /\ status_code response = 200%Z
          /\ fromstring (response_text response) = Some root
          /\ find_descendant (strip_namespaces root)
               "DomainDNSSetHostsResult" = Some result
          /\ get result "IsSuccess" = Some "true"
          /\ children result <> [].
Proof.
  intros net fromstring config sld tld hosts w req run. unfold run.
  destruct (set_dns_records_spec net fromstring config sld tld hosts w)
    as (w' & E & Hs).
  fold req in E, Hs. rewrite E. cbn [fst snd]. unfold push_result.
  set (policy := retry_policy (fun j => net j req) (length (sent w)) 3)
    in *.
  destruct (snd policy) as [response|] eqn:Hp; [|discriminate].
  destruct (fromstring (response_text response)) as [root|] eqn:Hx;
    [|discriminate].
  destruct (AddSubdomain.update_failed _) eqn:Hu; [discriminate|].
  intros _. apply update_failed_false_iff in Hu.
  destruct Hu as (result & Hf & Hc & Hg).
  destruct (retry_policy_returns_last _ _ _ _ Hp) as [Hlast H200].
  pose proof (retry_policy_bound (fun j => net j req) 3
                (length (sent w))) as [_ Hk].
  fold policy in Hlast, Hk.
  exists response, root, result. repeat split; auto.
  rewrite Hs, length_app, repeat_length.
  replace (pred (length (sent w) + fst policy))
    with (length (sent w) + pred (fst policy)) by lia.
  exact Hlast.
Qed.



(** X22. [set_dns_records] sends between one and three requests, all of
    them the one [setHosts] request for the hosts it was given, and no
    other request; when it raises, it is with the failure of the transport,
    of the parser, or with the update failure that carries the body. *)
Theorem push_sends_only_the_push :
  forall (net : network) (fromstring : string -> option Element)
         (config : AddSubdomain.config) (sld tld : string)
         (hosts : list host_record) (w : world),
    let req := setHosts_request config sld tld hosts in
    let run :=
      AddSubdomain.set_dns_records net fromstring config sld tld hosts w in
    (exists k,
        1 <= k <= 3 /\ sent (snd run) = sent w ++ repeat req k)
    /\ is_push req = true
    /\ is_fetch req = false
    /\ (forall e,
          fst run = Raise e ->
          e = FailedAfterRetries 3
          \/ (exists body,
                 e = ParseError body /\ fromstring body = None)
          \/ (exists body, e = UpdateFailed body)).
Proof.
  intros net fromstring config sld tld hosts w req run. unfold run.
  destruct (set_dns_records_spec net fromstring config sld tld hosts w)
    as (w' & E & Hs).
  fold req in E, Hs. rewrite E. cbn [fst snd].
  pose proof (retry_policy_bound (fun j => net j req) 3
                (length (sent w))) as [Hle Hge].
  split; [|split; [|split]].
  - eexists. split; [|exact Hs]. lia.
  - apply setHosts_request_is_push.
  - apply setHosts_request_is_push.
  - intros e. unfold push_result.
    destruct (snd (retry_policy _ _ 3)) as [response|].
    + destruct (fromstring (response_text response)) as [root|] eqn:Hx.
      * destruct (AddSubdomain.update_failed _); [|discriminate].
        intros H. injection H as <-. right. right. eauto.
      * intros H. injection H as <-. right. left. eauto.
    + intros H. injection H as <-. auto.
Qed.

(** ** The two [main]s *)

Lemma confirmed_test (confirm : string) :
  negb ((confirm =? "y") || (confirm =? "yes")) = false
  <-> confirm = "y" \/ confirm = "yes".
Proof.
  destruct (String.eqb_spec confirm "y") as [Hy|Hy]; simpl.
  - split; auto.
  - destruct (String.eqb_spec confirm "yes") as [Hs|Hs]; simpl.
    + split; auto.
    + split; [discriminate|]. intros [H|H]; contradiction.
Qed.

(** [main] after the confirmation, in terms of the fetch and the push. *)
Lemma main_confirmed_spec net fromstring getenv extract args confirm
  config subdomain sld tld w :
  AddSubdomain.load_config getenv = Return config ->
  AddSubdomain.parse_domain_parts extract (AddSubdomain.domain args)
  = Return (subdomain, sld, tld) ->
  confirm = "y" \/ confirm = "yes" ->
  let run :=
    AddSubdomain.main net fromstring getenv extract args confirm w in
  match AddSubdomain.get_dns_records net fromstring config sld tld w with
  | (Raise e, w1) => fst run = Return (SysExit 1) /\ sent (snd run) = sent w1
  | (Return existing_records, w1) =>
      exists w2,
        sent w2 = sent w1
        /\ match
             AddSubdomain.set_dns_records net fromstring config sld tld
               (AddSubdomain.updated_records config existing_records
                  subdomain (chosen_ip config args)) w2
           with
           | (Return _, w3) =>
               fst run = Return Finished /\ sent (snd run) = sent w3
           | (Raise e, w3) =>
               fst run = Return (SysExit 1) /\ sent (snd run) = sent w3
           end
  end.
Proof.
  intros Hcfg Hdom Hyes run. unfold run, AddSubdomain.main.
  rewrite Hcfg, Hdom. apply confirmed_test in Hyes. rewrite Hyes.
  fold (chosen_ip config args).
  unfold bind, try_except.
  destruct (AddSubdomain.get_dns_records net fromstring config sld tld w)
    as [[existing_records|e] w1]; simpl; [|auto].
  exists (mk_world (sent w1)
            ((log w1 ++ [(INFO, FetchedRecords (length existing_records))])
             ++ [(INFO,
                  FinalRecordSet
                    (length
                       (AddSubdomain.updated_records config
                          existing_records subdomain
                          (chosen_ip config args))))])).
  split; [reflexivity|].
  destruct (AddSubdomain.set_dns_records _ _ _ _ _ _ _) as [[u|e] w3];
    simpl; auto.
Qed.

(** [main] before the fetch: the three ways it stops without sending. *)
Lemma main_stops_early net fromstring getenv extract args confirm w :
  let run :=
    AddSubdomain.main net fromstring getenv extract args confirm w in
  (forall e,
      AddSubdomain.load_config getenv = Raise e ->
      fst run = Return (SysExit 1) /\ sent (snd run) = sent w)
  /\ (forall config e,
        AddSubdomain.load_config getenv = Return config ->
        AddSubdomain.parse_domain_parts extract (AddSubdomain.domain args)
        = Raise e ->
        fst run = Return (SysExit 1) /\ sent (snd run) = sent w)
  /\ (forall config parts,
        AddSubdomain.load_config getenv = Return config ->
        AddSubdomain.parse_domain_parts extract (AddSubdomain.domain args)
        = Return parts ->
        ~ (confirm = "y" \/ confirm = "yes") ->
        fst run = Return (SysExit 0) /\ sent (snd run) = sent w).
Proof.
  intros run. unfold run, AddSubdomain.main. split; [|split].
  - intros e ->. auto.
  - intros config e -> ->. auto.
  - intros config [[subdomain sld] tld] -> -> Hno.
    destruct (negb ((confirm =? "y") || (confirm =? "yes"))) eqn:Hc.
    + auto.
    + apply confirmed_test in Hc. contradiction.
Qed.

(** X23. [main] of the write script from the parsed command line on, with
    the prompt answered when it is reached: every exception that
    [load_config], [parse_domain_parts], [get_dns_records] and
    [set_dns_records] raise is caught, and the run ends by [sys.exit(0)],
    by [sys.exit(1)] or by returning. It exits with status 0 exactly when
    the configuration loads, the domain parses and the answer to the prompt
    is neither [y] nor [yes]. *)
Theorem main_exit_status_after_parse_args :
  forall (net : network) (fromstring : string -> option Element)
         (getenv : string -> pystr) (extract : string -> ExtractResult)
         (args : AddSubdomain.Namespace) (confirm : string) (w : world),
    let run :=
      AddSubdomain.main net fromstring getenv extract args confirm w in
    (fst run = Return (SysExit 0) \/ fst run = Return (SysExit 1)
     \/ fst run = Return Finished)
    /\ (fst run = Return (SysExit 0)
        <-> (exists config, AddSubdomain.load_config getenv = Return config)
            /\ (exists parts,
                   AddSubdomain.parse_domain_parts extract
                     (AddSubdomain.domain args) = Return parts)
            /\ confirm <> "y" /\ confirm <> "yes").
Proof.
  intros net fromstring getenv extract args confirm w run.
  destruct (main_stops_early net fromstring getenv extract args confirm w)
    as (Hl & Hp & Hn). fold run in Hl, Hp, Hn.
  destruct (AddSubdomain.load_config getenv) as [config|e] eqn:Hcfg.
  2:{ destruct (Hl e eq_refl) as [H _]. rewrite H.
      split; [auto|]. split; [discriminate|].
      intros ((c & Hc) & _). discriminate. }
  destruct (AddSubdomain.parse_domain_parts extract
              (AddSubdomain.domain args)) as [parts|e] eqn:Hdom.
  2:{ destruct (Hp config e eq_refl eq_refl) as [H _]. rewrite H.
      split; [auto|]. split; [discriminate|].
      intros (_ & (c & Hc) & _). discriminate. }
  destruct (String.eqb_spec confirm "y") as [Hy|Hy];
    [|destruct (String.eqb_spec confirm "yes") as [Hs|Hs]].
  3:{ destruct (Hn config parts eq_refl eq_refl) as [H _];
        [intros [?|?]; contradiction|].
      rewrite H. split; [auto|]. split; [|reflexivity].
      intros _. split; [eauto|split; [eauto|split; assumption]]. }
  all: destruct parts as [[subdomain sld] tld];
    pose proof (main_confirmed_spec net fromstring getenv extract args
                  confirm config subdomain sld tld w Hcfg Hdom
                  ltac:(auto)) as Hm;
    cbv zeta in Hm; fold run in Hm;
    destruct (AddSubdomain.get_dns_records net fromstring config sld tld w)
      as [[existing_records|e] w1];
    [ destruct Hm as (w2 & _ & Hm);
      destruct (AddSubdomain.set_dns_records _ _ _ _ _ _ _)
        as [[u|e] w3]; destruct Hm as [H _]
    | destruct Hm as [H _] ];
    rewrite H;
    (split; [auto|]; split; [discriminate|];
     intros (_ & _ & N1 & N2); contradiction).
Qed.

(** X24. [main] of the write script sends nothing before the configuration
    is loaded, the domain parsed and the prompt answered by [y] or [yes]:
    a run that changes the list of requests has passed all three. *)
Theorem main_sends_only_after_confirmation :
  forall (net : network) (fromstring : string -> option Element)
         (getenv : string -> pystr) (extract : string -> ExtractResult)
         (args : AddSubdomain.Namespace) (confirm : string) (w : world),
    sent (snd (AddSubdomain.main net fromstring getenv extract args
                 confirm w)) <> sent w ->
    (exists config, AddSubdomain.load_config getenv = Return config)
    /\ (exists parts,
           AddSubdomain.parse_domain_parts extract
             (AddSubdomain.domain args) = Return parts)
    /\ (confirm = "y" \/ confirm = "yes").
Proof.
  intros net fromstring getenv extract args confirm w Hsent.
  destruct (main_stops_early net fromstring getenv extract args confirm w)
    as (Hl & Hp & Hn).
  destruct (AddSubdomain.load_config getenv) as [config|e] eqn:Hcfg.
  2:{ destruct (Hl e eq_refl) as [_ H]. contradiction. }
  destruct (AddSubdomain.parse_domain_parts extract
              (AddSubdomain.domain args)) as [parts|e] eqn:Hdom.
  2:{ destruct (Hp config e eq_refl eq_refl) as [_ H]. contradiction. }
  split; [eauto|]. split; [eauto|].
  destruct (String.eqb_spec confirm "y") as [Hy|Hy]; [auto|].
  destruct (String.eqb_spec confirm "yes") as [Hs|Hs]; [auto|].
  destruct (Hn config parts eq_refl eq_refl) as [_ H];
    [intros [?|?]; contradiction|].
  contradiction.
Qed.

Lemma main_sends_only_after_confirmation_witness :
  (exists config,
      AddSubdomain.load_config Sample.getenv = Return config)
  /\ (exists parts,
         AddSubdomain.parse_domain_parts Sample.extract
           (AddSubdomain.domain Sample.args) = Return parts).
Proof.
  destruct (main_sends_only_after_confirmation Sample.net_down
              Sample.fromstring Sample.getenv Sample.extract Sample.args
              "yes" initial_world) as (H1 & H2 & _).
  - intros H. vm_compute in H. discriminate H.
  - split; [exact H1|exact H2].
Defined.

(** X25. After the confirmation [main] fetches, then pushes, and does
    nothing else on the network: one to three times the [getHosts] request;
    then, only when the fetch returned records, one to three times the
    [setHosts] request for the records of step 5, computed from the fetched
    records, the parsed subdomain and the chosen address. A failed fetch
    ends the run with status 1. *)
Theorem main_fetches_then_pushes :
  forall (net : network) (fromstring : string -> option Element)
         (getenv : string -> pystr) (extract : string -> ExtractResult)
         (args : AddSubdomain.Namespace) (confirm : string)
         (config : AddSubdomain.config) (subdomain sld tld : string)
         (w : world),
    AddSubdomain.load_config getenv = Return config ->
    AddSubdomain.parse_domain_parts extract (AddSubdomain.domain args)
    = Return (subdomain, sld, tld) ->
    confirm = "y" \/ confirm = "yes" ->
    let run :=
      AddSubdomain.main net fromstring getenv extract args confirm w in
    let fetch := getHosts_request config sld tld in
    exists k1,
      1 <= k1 <= 3
      /\ match
           fst (AddSubdomain.get_dns_records net fromstring config sld tld w)
         with
         | Raise e =>
             fst run = Return (SysExit 1)
             /\ sent (snd run) = sent w ++ repeat fetch k1
         | Return existing_records =>
             exists k2,
               1 <= k2 <= 3
               /\ sent (snd run)
                  = sent w ++ repeat fetch k1
                    ++ repeat
                         (setHosts_request config sld tld
                            (AddSubdomain.updated_records config
                               existing_records subdomain
                               (chosen_ip config args))) k2
         end.
Proof.
  intros net fromstring getenv extract args confirm config subdomain sld tld
    w Hcfg Hdom Hyes run fetch.
  pose proof (main_confirmed_spec net fromstring getenv extract args confirm
                config subdomain sld tld w Hcfg Hdom Hyes) as Hm.
  cbv zeta in Hm. fold run in Hm.
  destruct (add_get_dns_records_spec net fromstring config sld tld w)
    as (w1 & E & Hs).
  fold fetch in E, Hs.
  pose proof (retry_policy_bound (fun j => net j fetch) 3
                (length (sent w))) as [Hle Hge].
  rewrite E in Hm. rewrite E. cbn [fst].
  exists (fst (retry_policy (fun j => net j fetch) (length (sent w)) 3)).
  split; [lia|].
  destruct (add_fetch_result fromstring config _) as [existing_records|e].
  - destruct Hm as (w2 & Hs2 & Hm).
    destruct (set_dns_records_spec net fromstring config sld tld
                (AddSubdomain.updated_records config existing_records
                   subdomain (chosen_ip config args)) w2)
      as (w3 & E3 & Hs3).
    rewrite E3 in Hm.
    pose proof (retry_policy_bound
                  (fun j =>
                     net j
                       (setHosts_request config sld tld
                          (AddSubdomain.updated_records config
                             existing_records subdomain
                             (chosen_ip config args)))) 3
                  (length (sent w2))) as [Hle2 Hge2].
    set (k2 := fst (retry_policy _ (length (sent w2)) 3)) in *.
    exists k2. split; [lia|].
    assert (Hf : sent (snd run) = sent w3)
      by (destruct (push_result fromstring _); tauto).
    rewrite Hf, Hs3, Hs2, Hs, <- app_assoc. reflexivity.
  - destruct Hm as [H1 H2]. split; [exact H1|]. now rewrite H2, Hs.
Qed.

(** The sample zone, answered by the registrar with a confirmed push: one
    fetch, then one push of the three records of step 5. *)
Lemma main_fetches_then_pushes_witness :
  exists k1 k2,
    1 <= k1 <= 3 /\ 1 <= k2 <= 3
    /\ sent (snd (AddSubdomain.main
                    (Sample.net_zone Sample.setHosts_warnings_body)
                    Sample.fromstring Sample.getenv Sample.extract
                    Sample.args "y" initial_world))
       = repeat (getHosts_request Sample.config "example" "com") k1
         ++ repeat
              (setHosts_request Sample.config "example" "com"
                 [ mk_host (Some "DEV") (Some "A") (Some "1.1.1.1")
                     (Some "10") (Some "300");
                   mk_host (Some "www") (Some "CNAME")
                     (Some "example.com.") (Some "") (Some "1800");
                   mk_host (Some "dev") (Some "A") (Some "9.9.9.9")
                     (Some "") (Some "1800") ]) k2.
Proof.
  destruct (main_fetches_then_pushes
              (Sample.net_zone Sample.setHosts_warnings_body)
              Sample.fromstring Sample.getenv Sample.extract Sample.args
              "y" Sample.config "dev" "example" "com" initial_world
              eq_refl eq_refl (or_introl eq_refl)) as (k1 & Hk1 & H).
  assert (E : fst (AddSubdomain.get_dns_records
                     (Sample.net_zone Sample.setHosts_warnings_body)
                     Sample.fromstring Sample.config "example" "com"
                     initial_world)
              = Return
                  [ mk_host (Some "DEV") (Some "A") (Some "1.1.1.1")
                      (Some "10") (Some "300");
                    mk_host (Some "www") (Some "CNAME")
                      (Some "example.com.") (Some "") (Some "1800") ])
    by reflexivity.
  rewrite E in H. destruct H as (k2 & Hk2 & Hs).
  exists k1, k2. split; [exact Hk1|]. split; [exact Hk2|]. exact Hs.
Defined.

(** X26. [main] returns, instead of exiting, only after a confirmed push:
    the fetch returned records, and the last request of the run, the push
    of the records of step 5, was answered with status 200 by a body that
    is XML and whose [DomainDNSSetHostsResult] element has [IsSuccess]
    ["true"]. *)
Theorem main_returns_only_after_confirmed_push :
  forall (net : network) (fromstring : string -> option Element)
         (getenv : string -> pystr) (extract : string -> ExtractResult)
         (args : AddSubdomain.Namespace) (confirm : string) (w : world),
    let run :=
      AddSubdomain.main net fromstring getenv extract args confirm w in
    fst run = Return Finished ->
    exists config subdomain sld tld existing_records response root result,
      AddSubdomain.load_config getenv = Return config
      /\ AddSubdomain.parse_domain_parts extract (AddSubdomain.domain args)
         = Return (subdomain, sld, tld)
      /\ fst (AddSubdomain.get_dns_records net fromstring config sld tld w)
         = Return existing_records
      /\ net (pred (length (sent (snd run))))
           (setHosts_request config sld tld
              (AddSubdomain.updated_records config existing_records
                 subdomain (chosen_ip config args)))
         = Got response
      /\ status_code response = 200%Z
      /\ fromstring (response_text response) = Some root
      /\ find_descendant (strip_namespaces root) "DomainDNSSetHostsResult"
         = Some result
      /\ get result "IsSuccess" = Some "true".
Proof.
  intros net fromstring getenv extract args confirm w run Hfin.
  destruct (main_stops_early net fromstring getenv extract args confirm w)
    as (Hl & Hp & Hn). fold run in Hl, Hp, Hn.
  destruct (AddSubdomain.load_config getenv) as [config|e] eqn:Hcfg.
  2:{ destruct (Hl e eq_refl) as [H _]. congruence. }
  destruct (AddSubdomain.parse_domain_parts extract
              (AddSubdomain.domain args)) as [parts|e] eqn:Hdom.
  2:{ destruct (Hp config e eq_refl eq_refl) as [H _]. congruence. }
  assert (Hyes : confirm = "y" \/ confirm = "yes").
  { destruct (String.eqb_spec confirm "y") as [Hy|Hy]; [auto|].
    destruct (String.eqb_spec confirm "yes") as [Hs|Hs]; [auto|].
    destruct (Hn config parts eq_refl eq_refl) as [H _];
      [intros [?|?]; contradiction|]. congruence. }
  destruct parts as [[subdomain sld] tld].
  pose proof (main_confirmed_spec net fromstring getenv extract args confirm
                config subdomain sld tld w Hcfg Hdom Hyes) as Hm.
  cbv zeta in Hm. fold run in Hm.
  destruct (AddSubdomain.get_dns_records net fromstring config sld tld w)
    as [[existing_records|e] w1] eqn:Eg; [|destruct Hm; congruence].
  destruct Hm as (w2 & Hs2 & Hm).
  pose proof (set_dns_records_returns_confirmed net fromstring config sld
                tld
                (AddSubdomain.updated_records config existing_records
                   subdomain (chosen_ip config args)) w2) as Hiff.
  cbv zeta in Hiff.
  destruct (AddSubdomain.set_dns_records net fromstring config sld tld
              (AddSubdomain.updated_records config existing_records
                 subdomain (chosen_ip config args)) w2) as [[[]|e] w3];
    [|destruct Hm; congruence].
  destruct Hm as [_ Hs3]. cbn [fst snd] in Hiff.
  destruct (Hiff eq_refl)
    as (response & root & result & H1 & _ & H3 & H4 & H5 & H6 & _).
  exists config, subdomain, sld, tld, existing_records, response, root,
    result.
  rewrite Hs3, Eg. repeat split; auto.
Qed.

Lemma main_returns_only_after_confirmed_push_witness :
  exists response root result,
    status_code response = 200%Z
    /\ Sample.fromstring (response_text response) = Some root
    /\ find_descendant (strip_namespaces root) "DomainDNSSetHostsResult"
       = Some result
    /\ get result "IsSuccess" = Some "true".
Proof.
  destruct (main_returns_only_after_confirmed_push
              (Sample.net_zone Sample.setHosts_warnings_body)
              Sample.fromstring Sample.getenv Sample.extract Sample.args
              "y" initial_world)
    as (config & subdomain & sld & tld & existing_records & response
        & root & result & _ & _ & _ & _ & H1 & H2 & H3 & H4).
  - vm_compute. reflexivity.
  - exists response, root, result. auto.
Defined.

(** [main] of the read script in terms of its fetch. *)
Lemma check_main_spec net fromstring getenv extract domain w :
  let run := CheckOldRecords.main net fromstring getenv extract domain w in
  match CheckOldRecords.load_config getenv with
  | Raise _ => fst run = Return (SysExit 1) /\ sent (snd run) = sent w
  | Return config =>
      match CheckOldRecords.parse_domain_parts extract domain with
      | Raise _ => fst run = Return (SysExit 1) /\ sent (snd run) = sent w
      | Return (subdomain, sld, tld) =>
          exists w0,
            sent w0 = sent w
            /\ match
                 CheckOldRecords.get_dns_records net fromstring config sld
                   tld w0
               with
               | (Return _, w1) =>
                   fst run = Return Finished /\ sent (snd run) = sent w1
               | (Raise _, w1) =>
                   fst run = Return (SysExit 1)
                   /\ sent (snd run) = sent w1
               end
      end
  end.
Proof.
  intros run. unfold run, CheckOldRecords.main.
  destruct (CheckOldRecords.load_config getenv) as [config|e]; [|auto].
  destruct (CheckOldRecords.parse_domain_parts extract domain)
    as [[[subdomain sld] tld]|e]; [|auto].
  exists (mk_world (sent w)
            (log w ++ [(INFO, ParsedDomain subdomain sld tld)])).
  split; [reflexivity|]. unfold bind, try_except, logger. simpl.
  destruct (CheckOldRecords.get_dns_records _ _ _ _ _ _) as [[r|e] w1];
    simpl; auto.
Qed.

Lemma check_getHosts_request_is_fetch config sld tld :
  is_fetch (check_getHosts_request config sld tld) = true
  /\ is_push (check_getHosts_request config sld tld) = false.
Proof. split; reflexivity. Qed.

(** X27. The read script is read-only: whatever its inputs, [main] sends at
    most three requests, all of them [getHosts] requests, and never a
    push. *)
Theorem check_main_is_read_only :
  forall (net : network) (fromstring : string -> option Element)
         (getenv : string -> pystr) (extract : string -> ExtractResult)
         (domain : string) (w : world),
    let run := CheckOldRecords.main net fromstring getenv extract domain w in
    pushes (snd run) = pushes w
    /\ (exists requests,
           sent (snd run) = sent w ++ requests
           /\ length requests <= 3
           /\ Forall (fun r => is_fetch r = true) requests
           /\ Forall (fun r => is_push r = false) requests).
Proof.
  intros net fromstring getenv extract domain w run.
  pose proof (check_main_spec net fromstring getenv extract domain w) as Hm.
  cbv zeta in Hm. fold run in Hm.
  assert (Hnone : sent (snd run) = sent w ->
                  pushes (snd run) = pushes w
                  /\ (exists requests,
                         sent (snd run) = sent w ++ requests
                         /\ length requests <= 3
                         /\ Forall (fun r => is_fetch r = true) requests
                         /\ Forall (fun r => is_push r = false) requests)).
  { intros H. split; [unfold pushes; now rewrite H|].
    exists []. rewrite app_nil_r. simpl. split; [exact H|].
    split; [lia|split; constructor]. }
  destruct (CheckOldRecords.load_config getenv) as [config|e].
  2:{ destruct Hm as [_ H2]. exact (Hnone H2). }
  destruct (CheckOldRecords.parse_domain_parts extract domain)
    as [[[subdomain sld] tld]|e].
  2:{ destruct Hm as [_ H2]. exact (Hnone H2). }
  destruct Hm as (w0 & Hs0 & Hm).
  destruct (check_get_dns_records_spec net fromstring config sld tld w0)
    as (w1 & E & Hs1).
  rewrite E in Hm.
  assert (Hf : sent (snd run) = sent w1).
  { destruct (check_fetch_result fromstring _); destruct Hm; auto. }
  split.
  - unfold pushes. rewrite Hf, Hs1, Hs0, filter_app.
    rewrite filter_repeat_false; [apply app_nil_r|reflexivity].
  - eexists. split; [rewrite Hf, Hs1, Hs0; reflexivity|].
    rewrite repeat_length. split; [apply retry_policy_bound|].
    split; apply Forall_forall; intros r Hr; apply repeat_spec in Hr;
      subst r; reflexivity.
Qed.

Lemma check_request_same (config : AddSubdomain.config) (sld tld : string) :
  check_getHosts_request
    (CheckOldRecords.mk_config (AddSubdomain.API_URL config)
       (AddSubdomain.API_USER config) (AddSubdomain.API_KEY config)
       (AddSubdomain.USERNAME config) (AddSubdomain.CLIENT_IP config))
    sld tld
  = getHosts_request config sld tld.
Proof. reflexivity. Qed.

(** X28. With the same settings and the same network, when the fetch of the
    write script returns records the fetch of the read script returns them
    too, up to the default TTL: the two send the same request, and the read
    script raises on fewer responses. *)
Theorem read_fetch_returns_when_write_fetch_does :
  forall (net : network) (fromstring : string -> option Element)
         (config : AddSubdomain.config) (sld tld : string) (w : world)
         (records : list host_record),
    fst (AddSubdomain.get_dns_records net fromstring config sld tld w)
    = Return records ->
    exists read,
      fst (CheckOldRecords.get_dns_records net fromstring
             (CheckOldRecords.mk_config (AddSubdomain.API_URL config)
                (AddSubdomain.API_USER config)
                (AddSubdomain.API_KEY config)
                (AddSubdomain.USERNAME config)
                (AddSubdomain.CLIENT_IP config)) sld tld w)
      = Return read
      /\ records
         = map (with_default_ttl (AddSubdomain.DEFAULT_TTL config)) read.
Proof.
  intros net fromstring config sld tld w records.
  destruct (add_get_dns_records_spec net fromstring config sld tld w)
    as (wa & Ea & _).
  destruct (check_get_dns_records_spec net fromstring
              (CheckOldRecords.mk_config (AddSubdomain.API_URL config)
                 (AddSubdomain.API_USER config)
                 (AddSubdomain.API_KEY config)
                 (AddSubdomain.USERNAME config)
                 (AddSubdomain.CLIENT_IP config)) sld tld w)
    as (wc & Ec & _).
  rewrite check_request_same in Ec. rewrite Ea, Ec. cbn [fst].
  unfold add_fetch_result, check_fetch_result.
  destruct (snd (retry_policy _ _ 3)) as [response|]; [|discriminate].
  destruct (fromstring (response_text response)) as [root|];
    [|discriminate].
  destruct (findall_descendant (strip_namespaces root) "Error");
    [|discriminate].
  intros H. injection H as <-. eexists. split; [reflexivity|].
  unfold AddSubdomain.gather_hosts, CheckOldRecords.gather_hosts.
  rewrite !for_append_map, map_map. apply map_ext.
  intros host. apply add_host_dict_with_default.
Qed.

Lemma read_fetch_returns_when_write_fetch_does_witness :
  exists read,
    fst (CheckOldRecords.get_dns_records
           (Sample.net_const Sample.getHosts_body) Sample.fromstring
           Sample.check_config "example" "com" initial_world)
    = Return read
    /\ length read = 2.
Proof.
  destruct (read_fetch_returns_when_write_fetch_does
              (Sample.net_const Sample.getHosts_body) Sample.fromstring
              Sample.config "example" "com" initial_world _ eq_refl)
    as (read & H & Hm).
  exists read. split; [exact H|].
  apply (f_equal (@length host_record)) in Hm.
  rewrite length_map in Hm. symmetry. exact Hm.
Defined.

(** ** Samples for the first properties *)

(** No record of the sample list is an A record of [dev]: pure append. *)
Lemma updated_records_pure_append_witness :
  AddSubdomain.updated_records Sample.config Cases.two_hosts "dev" "9.9.9.9"
  = Cases.two_hosts
    ++ [AddSubdomain.new_record Sample.config "dev" "9.9.9.9"].
Proof.
  apply (proj2 (updated_records_pure_append Sample.config Cases.two_hosts
                  "dev" "9.9.9.9")).
  intros r [<-|[<-|[]]]; reflexivity.
Defined.

(** The bare domain [example.com]: refused by the write script for its
    missing subdomain, accepted by the read script. *)
Lemma parse_domain_parts_read_accepts_more_witness :
  AddSubdomain.parse_domain_parts Cases.extract "example.com"
  = Raise MustProvideSubdomain
  /\ CheckOldRecords.parse_domain_parts Cases.extract "example.com"
     = Return ("", "example", "com")
  /\ AddSubdomain.parse_domain_parts Cases.extract "com"
     = Raise (CouldNotParse "com").
Proof.
  destruct (parse_domain_parts_read_accepts_more Cases.extract
              "example.com") as (_ & H & _).
  destruct (parse_domain_parts_read_accepts_more Cases.extract "com")
    as (_ & _ & H').
  split; [|split; [reflexivity|]].
  - apply (proj2 H). exists "example", "com". reflexivity.
  - exact (proj2 (H' (CouldNotParseDomain "com") eq_refl)).
Defined.
